(** * Planning projects: a shallow embedding of the Blitz resolvers

    The development follows the TypeScript sources of the planning-project
    feature:

    - [app/planningProjects/mutations/createPlanningProject.ts]
    - [app/planningProjects/mutations/updatePlanningProject.ts]
    - [app/planningProjects/mutations/deletePlanningProject.ts]
    - [app/planningProjects/queries/getPlanningProject.ts]
    - [app/planningProjects/queries/getPlanningProjects.ts]
    - [app/components/planning_project_list.tsx]
    - the migration that creates the [PlanningProject] tables.

    A resolver is a computation in a small state-and-exception monad over a
    [World]: the tables of the database together with the log of the Prisma
    calls issued so far.  An exception keeps the world as it was when the
    exception was thrown, which is what happens in the source: no resolver
    opens a transaction. *)

From stdpp Require Import base option list strings numbers sorting gmap.

Local Open Scope string_scope.
Local Open Scope Z_scope.

(** ** Enumerations of the migration *)

Inductive PlanningProjectType :=
| COMPREHENSIVE_PLAN
| BIKE_PLAN
| PEDESTRIAN_PLAN
| WALKABILITY_STUDY
| TRANSIT_RIDERSHIP_FORECAST
| SS4A_SAFETY_PLAN
| FOOD_DESERT_ANALYSIS
| COMMUNITY_HEALTH_PLAN
| NEIGHBORHOOD_PLAN
| ROAD_DIET_ANALYSIS
| ROADWAY_REMOVAL_FOR_PARKS
| CUSTOM.

Inductive PlanningProjectStatus :=
| DRAFT
| SCOPING
| IN_PROGRESS
| REVIEW
| COMPLETE
| ARCHIVED.

#[global] Instance PlanningProjectType_eq_dec : EqDecision PlanningProjectType.
Proof. solve_decision. Defined.

#[global] Instance PlanningProjectStatus_eq_dec : EqDecision PlanningProjectStatus.
Proof. solve_decision. Defined.

(** The enums are string enums in TypeScript: every member is its own name. *)
Definition PlanningProjectType_values : list (string * PlanningProjectType) :=
  [ ("COMPREHENSIVE_PLAN", COMPREHENSIVE_PLAN);
    ("BIKE_PLAN", BIKE_PLAN);
    ("PEDESTRIAN_PLAN", PEDESTRIAN_PLAN);
    ("WALKABILITY_STUDY", WALKABILITY_STUDY);
    ("TRANSIT_RIDERSHIP_FORECAST", TRANSIT_RIDERSHIP_FORECAST);
    ("SS4A_SAFETY_PLAN", SS4A_SAFETY_PLAN);
    ("FOOD_DESERT_ANALYSIS", FOOD_DESERT_ANALYSIS);
    ("COMMUNITY_HEALTH_PLAN", COMMUNITY_HEALTH_PLAN);
    ("NEIGHBORHOOD_PLAN", NEIGHBORHOOD_PLAN);
    ("ROAD_DIET_ANALYSIS", ROAD_DIET_ANALYSIS);
    ("ROADWAY_REMOVAL_FOR_PARKS", ROADWAY_REMOVAL_FOR_PARKS);
    ("CUSTOM", CUSTOM) ].

Definition PlanningProjectStatus_values : list (string * PlanningProjectStatus) :=
  [ ("DRAFT", DRAFT);
    ("SCOPING", SCOPING);
    ("IN_PROGRESS", IN_PROGRESS);
    ("REVIEW", REVIEW);
    ("COMPLETE", COMPLETE);
    ("ARCHIVED", ARCHIVED) ].

(** ** JavaScript values

    The argument of a resolver is whatever the RPC layer received.  Numbers
    are only ever looked at through their type and their truthiness here, so
    integers are enough. *)

#[warnings="-register-all"]
Inductive JsValue :=
| JsUndefined
| JsNull
| JsBool (b : bool)
| JsNumber (n : Z)
| JsString (s : string)
| JsArray (items : list JsValue)
| JsObject (props : list (string * JsValue)).

(** [o[key]]: a missing property reads as [undefined]. *)
Fixpoint get_prop (key : string) (props : list (string * JsValue)) : JsValue :=
  match props with
  | [] => JsUndefined
  | (k, v) :: rest => if String.eqb k key then v else get_prop key rest
  end.

(** ** Exceptions and outcomes *)

Inductive ZodIssueCode := invalid_type | invalid_string | invalid_enum_value.

Record ZodIssue := mkIssue { issue_code : ZodIssueCode; issue_path : list string }.

Inductive Exception :=
| ZodError (issues : list ZodIssue)
| AuthenticationError
| Error (message : string)
| PrismaClientKnownRequestError (code : string).

Inductive Outcome (A : Type) :=
| Return (a : A)
| Throw (e : Exception).

Arguments Return {A} a.
Arguments Throw {A} e.

(** ** Zod schemas

    A schema parses a [JsValue] into a typed value or a list of issues, all
    fields being looked at (zod does not stop at the first issue).  An
    object schema is not strict: properties it does not name are dropped. *)

Definition ZodResult (A : Type) : Type := list ZodIssue + A.

Definition ZodSchema (A : Type) : Type := list string -> JsValue -> ZodResult A.

Definition z_issue {A} (c : ZodIssueCode) (path : list string) : ZodResult A :=
  inl [mkIssue c path].

Definition z_string : ZodSchema string := fun path v =>
  match v with
  | JsString s => inr s
  | _ => z_issue invalid_type path
  end.

Definition z_any : ZodSchema JsValue := fun _ v => inr v.

Definition z_optional {A} (inner : ZodSchema A) : ZodSchema (option A) := fun path v =>
  match v with
  | JsUndefined => inr None
  | _ => match inner path v with
         | inl issues => inl issues
         | inr a => inr (Some a)
         end
  end.

Fixpoint enum_lookup {E} (values : list (string * E)) (s : string) : option E :=
  match values with
  | [] => None
  | (k, e) :: rest => if String.eqb k s then Some e else enum_lookup rest s
  end.

Definition z_nativeEnum {E} (values : list (string * E)) : ZodSchema E := fun path v =>
  match v with
  | JsString s =>
      match enum_lookup values s with
      | Some e => inr e
      | None => z_issue invalid_enum_value path
      end
  | JsNumber _ => z_issue invalid_enum_value path
  | _ => z_issue invalid_type path
  end.

(** The issues of a field, and its value when it has none. *)
Definition issues_of {A} (r : ZodResult A) : list ZodIssue :=
  match r with inl issues => issues | inr _ => [] end.

Section Schemas.

(** [z.string().uuid()] tests the string against zod's own regular
    expression, which is not part of this repository: it is a parameter. *)
Variable is_uuid : string -> bool.

Definition z_string_uuid : ZodSchema string := fun path v =>
  match z_string path v with
  | inl issues => inl issues
  | inr s => if is_uuid s then inr s else z_issue invalid_string path
  end.

Record UpdatePlanningProjectInput := {
  upd_id : string;
  upd_name : option string;
  upd_description : option string;
  upd_type : option PlanningProjectType;
  upd_status : option PlanningProjectStatus;
  upd_config : option JsValue;
  upd_conversationHistory : option JsValue;
}.

Record CreatePlanningProjectInput := {
  crt_name : option string;
  crt_description : option string;
  crt_type : option PlanningProjectType;
}.

Record IdInput := { inp_id : string }.

Record GetPlanningProjectsInput := { inp_status : option PlanningProjectStatus }.

(** [z.object({...})] on something that is not an object. *)
Definition z_object {A} (parse_props : list (string * JsValue) -> ZodResult A)
    (v : JsValue) : ZodResult A :=
  match v with
  | JsObject props => parse_props props
  | _ => z_issue invalid_type []
  end.

Definition UpdatePlanningProjectSchema : JsValue -> ZodResult UpdatePlanningProjectInput :=
  z_object (fun props =>
    let id := z_string_uuid ["id"] (get_prop "id" props) in
    let name := z_optional z_string ["name"] (get_prop "name" props) in
    let description := z_optional z_string ["description"] (get_prop "description" props) in
    let type := z_optional (z_nativeEnum PlanningProjectType_values) ["type"]
                  (get_prop "type" props) in
    let status := z_optional (z_nativeEnum PlanningProjectStatus_values) ["status"]
                    (get_prop "status" props) in
    let config := z_optional z_any ["config"] (get_prop "config" props) in
    let conversationHistory :=
      z_optional z_any ["conversationHistory"] (get_prop "conversationHistory" props) in
    match id, name, description, type, status, config, conversationHistory with
    | inr i, inr n, inr d, inr t, inr s, inr c, inr h =>
        inr {| upd_id := i; upd_name := n; upd_description := d; upd_type := t;
               upd_status := s; upd_config := c; upd_conversationHistory := h |}
    | _, _, _, _, _, _, _ =>
        inl (issues_of id ++ issues_of name ++ issues_of description ++ issues_of type
             ++ issues_of status ++ issues_of config ++ issues_of conversationHistory)%list
    end).

Definition CreatePlanningProjectSchema : JsValue -> ZodResult CreatePlanningProjectInput :=
  z_object (fun props =>
    let name := z_optional z_string ["name"] (get_prop "name" props) in
    let description := z_optional z_string ["description"] (get_prop "description" props) in
    let type := z_optional (z_nativeEnum PlanningProjectType_values) ["type"]
                  (get_prop "type" props) in
    match name, description, type with
    | inr n, inr d, inr t => inr {| crt_name := n; crt_description := d; crt_type := t |}
    | _, _, _ => inl (issues_of name ++ issues_of description ++ issues_of type)%list
    end).

Definition DeletePlanningProjectSchema : JsValue -> ZodResult IdInput :=
  z_object (fun props =>
    match z_string_uuid ["id"] (get_prop "id" props) with
    | inr i => inr {| inp_id := i |}
    | inl issues => inl issues
    end).

Definition GetPlanningProjectSchema : JsValue -> ZodResult IdInput :=
  z_object (fun props =>
    match z_string_uuid ["id"] (get_prop "id" props) with
    | inr i => inr {| inp_id := i |}
    | inl issues => inl issues
    end).

Definition GetPlanningProjectsSchema : JsValue -> ZodResult GetPlanningProjectsInput :=
  z_object (fun props =>
    match z_optional (z_nativeEnum PlanningProjectStatus_values) ["status"]
            (get_prop "status" props) with
    | inr s => inr {| inp_status := s |}
    | inl issues => inl issues
    end).

End Schemas.

(** ** Tables

    The columns are those of the migration; of [User] and
    [WrappedFeatureCollection] only the columns the queries select. *)

Module PlanningProject.
Record t := mk {
  id : string;
  name : string;
  description : string;
  type : PlanningProjectType;
  status : PlanningProjectStatus;
  organizationId : Z;
  createdById : option Z;
  config : option JsValue;
  conversationHistory : option JsValue;
  createdAt : Z;
  updatedAt : Z;
}.
End PlanningProject.

Module PlanningProjectMap.
Record t := mk {
  id : string;
  planningProjectId : string;
  wrappedFeatureCollectionId : string;
  purpose : option string;
  createdAt : Z;
}.
End PlanningProjectMap.

Module User.
Record t := mk { id : Z; name : option string; email : string }.
End User.

Module WrappedFeatureCollection.
Record t := mk { id : string; name : string; description : string }.
End WrappedFeatureCollection.

Record Database := {
  planningProject : list PlanningProject.t;
  planningProjectMap : list PlanningProjectMap.t;
  user : list User.t;
  wrappedFeatureCollection : list WrappedFeatureCollection.t;
}.

(** ** Arguments of the Prisma calls

    In a [where] or a [data] object a property that is absent or [undefined]
    is no condition and no assignment: [None] below. *)

Record PlanningProjectWhereInput := {
  where_id : option string;
  where_organizationId : option Z;
  where_status : option PlanningProjectStatus;
}.

Record PlanningProjectUpdateInput := {
  data_name : option string;
  data_description : option string;
  data_type : option PlanningProjectType;
  data_status : option PlanningProjectStatus;
  data_config : option JsValue;
  data_conversationHistory : option JsValue;
}.

Record PlanningProjectCreateInput := {
  new_name : string;
  new_description : string;
  new_type : PlanningProjectType;
  new_status : PlanningProjectStatus;
  new_organizationId : Z;
  new_createdById : option Z;
}.

Inductive PrismaCall :=
| planningProject_findFirst (whr : PlanningProjectWhereInput)
| planningProject_findMany (whr : PlanningProjectWhereInput)
| planningProject_create (data : PlanningProjectCreateInput)
| planningProject_update (id : string) (data : PlanningProjectUpdateInput)
| planningProject_delete (id : string).

Definition is_write (c : PrismaCall) : bool :=
  match c with
  | planningProject_findFirst _ | planningProject_findMany _ => false
  | planningProject_create _ | planningProject_update _ _ | planningProject_delete _ => true
  end.

(** ** The world and the monad of resolvers *)

Record World := {
  db : Database;
  calls : list PrismaCall;
  now : Z;
  uuid_counter : nat;
}.

(** A computation over a state [S] that returns or throws; the state an
    exception leaves behind is the one it was thrown in. *)
Definition Eff (S A : Type) : Type := S -> Outcome A * S.

Definition ret {S A} (a : A) : Eff S A := fun s => (Return a, s).

Definition throw {S A} (e : Exception) : Eff S A := fun s => (Throw e, s).

Definition bind {S A B} (c : Eff S A) (k : A -> Eff S B) : Eff S B := fun s =>
  match c s with
  | (Return a, s') => k a s'
  | (Throw e, s') => (Throw e, s')
  end.

(** [try { body } catch (error) { handler }] *)
Definition try_catch {S A} (body : Eff S A) (handler : Exception -> Eff S A) : Eff S A :=
  fun s =>
    match body s with
    | (Return a, s') => (Return a, s')
    | (Throw e, s') => handler e s'
    end.

Notation "'await' x := c 'in' k" := (bind c (fun x => k))
  (at level 10, x name, c at level 100, k at level 200).

Definition M (A : Type) : Type := Eff World A.

Definition log_call (c : PrismaCall) (w : World) : World :=
  {| db := db w; calls := (calls w ++ [c])%list; now := now w; uuid_counter := uuid_counter w |}.

Definition with_planningProject (rows : list PlanningProject.t) (d : Database) : Database :=
  {| planningProject := rows;
     planningProjectMap := planningProjectMap d;
     user := user d;
     wrappedFeatureCollection := wrappedFeatureCollection d |}.

(** ** Prisma's [planningProject] delegate *)

Definition opt_matches {A} `{EqDecision A} (cond : option A) (a : A) : bool :=
  match cond with
  | None => true
  | Some c => bool_decide (a = c)
  end.

Definition matches (whr : PlanningProjectWhereInput) (p : PlanningProject.t) : bool :=
  opt_matches (where_id whr) (PlanningProject.id p)
  && opt_matches (where_organizationId whr) (PlanningProject.organizationId p)
  && opt_matches (where_status whr) (PlanningProject.status p).

(** [orderBy: { updatedAt: "desc" }] *)
Definition updatedAt_desc (p q : PlanningProject.t) : Prop :=
  PlanningProject.updatedAt q ≤ PlanningProject.updatedAt p.

#[global] Instance updatedAt_desc_dec : RelDecision updatedAt_desc.
Proof. intros p q. unfold updatedAt_desc. apply _. Defined.

(** [select] and [include] shape a row into what the call returns; a shape
    reads the other tables of the same database. *)
Definition db_findFirst {R} (whr : PlanningProjectWhereInput)
    (shape : Database -> PlanningProject.t -> R) : M (option R) :=
  fun w =>
    (Return (shape (db w) <$> List.find (matches whr) (planningProject (db w))),
     log_call (planningProject_findFirst whr) w).

Definition db_findMany {R} (whr : PlanningProjectWhereInput)
    (shape : Database -> PlanningProject.t -> R) : M (list R) :=
  fun w =>
    (Return (shape (db w) <$>
               merge_sort updatedAt_desc
                 (List.filter (matches whr) (planningProject (db w)))),
     log_call (planningProject_findMany whr) w).

Definition or_else {A} (new : option A) (old : A) : A :=
  match new with Some a => a | None => old end.

(** The row after [UPDATE ... SET]: a column the data does not mention keeps
    its value, [updatedAt] is stamped by the client. *)
Definition apply_data (data : PlanningProjectUpdateInput) (stamp : Z)
    (p : PlanningProject.t) : PlanningProject.t :=
  {| PlanningProject.id := PlanningProject.id p;
     PlanningProject.name := or_else (data_name data) (PlanningProject.name p);
     PlanningProject.description :=
       or_else (data_description data) (PlanningProject.description p);
     PlanningProject.type := or_else (data_type data) (PlanningProject.type p);
     PlanningProject.status := or_else (data_status data) (PlanningProject.status p);
     PlanningProject.organizationId := PlanningProject.organizationId p;
     PlanningProject.createdById := PlanningProject.createdById p;
     PlanningProject.config :=
       match data_config data with
       | Some v => Some v
       | None => PlanningProject.config p
       end;
     PlanningProject.conversationHistory :=
       match data_conversationHistory data with
       | Some v => Some v
       | None => PlanningProject.conversationHistory p
       end;
     PlanningProject.createdAt := PlanningProject.createdAt p;
     PlanningProject.updatedAt := stamp |}.

Definition has_id (i : string) (p : PlanningProject.t) : bool :=
  bool_decide (PlanningProject.id p = i).

Definition P2002 : string := "P2002".  (* unique constraint failed *)
Definition P2025 : string := "P2025".  (* record to update or delete not found *)

Definition db_update (i : string) (data : PlanningProjectUpdateInput) : M PlanningProject.t :=
  fun w =>
    let w1 := log_call (planningProject_update i data) w in
    match List.find (has_id i) (planningProject (db w)) with
    | None => (Throw (PrismaClientKnownRequestError P2025), w1)
    | Some p =>
        let rows :=
          List.map (fun q => if has_id i q then apply_data data (now w) q else q)
            (planningProject (db w)) in
        (Return (apply_data data (now w) p),
         {| db := with_planningProject rows (db w); calls := calls w1;
            now := now w; uuid_counter := uuid_counter w |})
    end.

(** [DELETE]: the rows of [PlanningProjectMap] that reference the project go
    with it ([ON DELETE CASCADE]). *)
Definition db_delete (i : string) : M PlanningProject.t :=
  fun w =>
    let w1 := log_call (planningProject_delete i) w in
    match List.find (has_id i) (planningProject (db w)) with
    | None => (Throw (PrismaClientKnownRequestError P2025), w1)
    | Some p =>
        (Return p,
         {| db :=
              {| planningProject :=
                   List.filter (fun q => negb (has_id i q)) (planningProject (db w));
                 planningProjectMap :=
                   List.filter
                     (fun m => negb (bool_decide (PlanningProjectMap.planningProjectId m = i)))
                     (planningProjectMap (db w));
                 user := user (db w);
                 wrappedFeatureCollection := wrappedFeatureCollection (db w) |};
            calls := calls w1; now := now w; uuid_counter := uuid_counter w |})
    end.

Section Create.

(** [DEFAULT gen_random_uuid()]: the identifiers the database hands out. *)
Variable gen_random_uuid : nat -> string.

Definition db_create (data : PlanningProjectCreateInput) : M PlanningProject.t :=
  fun w =>
    let w1 := log_call (planningProject_create data) w in
    let i := gen_random_uuid (uuid_counter w) in
    let p :=
      {| PlanningProject.id := i;
         PlanningProject.name := new_name data;
         PlanningProject.description := new_description data;
         PlanningProject.type := new_type data;
         PlanningProject.status := new_status data;
         PlanningProject.organizationId := new_organizationId data;
         PlanningProject.createdById := new_createdById data;
         PlanningProject.config := None;
         PlanningProject.conversationHistory := None;
         PlanningProject.createdAt := now w;
         PlanningProject.updatedAt := now w |} in
    match List.find (has_id i) (planningProject (db w)) with
    | Some _ =>
        (Throw (PrismaClientKnownRequestError P2002),
         {| db := db w; calls := calls w1; now := now w;
            uuid_counter := S (uuid_counter w) |})
    | None =>
        (Return p,
         {| db := with_planningProject (planningProject (db w) ++ [p])%list (db w);
            calls := calls w1; now := now w; uuid_counter := S (uuid_counter w) |})
    end.

End Create.

(** ** Shapes of the query results *)

Record CreatedBy := {
  createdBy_id : Z;
  createdBy_name : option string;
  createdBy_email : string;
}.

(** [createdBy: { select: { id, name, email } }] *)
Definition include_createdBy (d : Database) (p : PlanningProject.t) : option CreatedBy :=
  match PlanningProject.createdById p with
  | None => None
  | Some u =>
      match List.find (fun r => bool_decide (User.id r = u)) (user d) with
      | None => None
      | Some r =>
          Some {| createdBy_id := User.id r;
                  createdBy_name := User.name r;
                  createdBy_email := User.email r |}
      end
  end.

Definition linkedMaps_of (d : Database) (p : PlanningProject.t) : list PlanningProjectMap.t :=
  List.filter
    (fun m => bool_decide (PlanningProjectMap.planningProjectId m = PlanningProject.id p))
    (planningProjectMap d).

(** An element of the list of [getPlanningProjects]:
    the row, [createdBy] and [_count.linkedMaps]. *)
Record PlanningProjectListItem := {
  item_project : PlanningProject.t;
  item_createdBy : option CreatedBy;
  item_count_linkedMaps : nat;
}.

Definition list_item (d : Database) (p : PlanningProject.t) : PlanningProjectListItem :=
  {| item_project := p;
     item_createdBy := include_createdBy d p;
     item_count_linkedMaps := length (linkedMaps_of d p) |}.

Record LinkedMap := {
  linkedMap_row : PlanningProjectMap.t;
  linkedMap_wrappedFeatureCollection : option WrappedFeatureCollection.t;
}.

Definition include_linkedMap (d : Database) (m : PlanningProjectMap.t) : LinkedMap :=
  {| linkedMap_row := m;
     linkedMap_wrappedFeatureCollection :=
       List.find
         (fun c => bool_decide (WrappedFeatureCollection.id c
                                = PlanningProjectMap.wrappedFeatureCollectionId m))
         (wrappedFeatureCollection d) |}.

(** The result of [getPlanningProject]: the row, [createdBy], [linkedMaps]. *)
Record PlanningProjectDetail := {
  detail_project : PlanningProject.t;
  detail_createdBy : option CreatedBy;
  detail_linkedMaps : list LinkedMap;
}.

Definition detail (d : Database) (p : PlanningProject.t) : PlanningProjectDetail :=
  {| detail_project := p;
     detail_createdBy := include_createdBy d p;
     detail_linkedMaps := include_linkedMap d <$> linkedMaps_of d p |}.

(** [select: { organizationId: true }] *)
Definition select_organizationId (_ : Database) (p : PlanningProject.t) : Z :=
  PlanningProject.organizationId p.

(** ** Blitz: session, context and the resolver pipeline *)

(** [authorize] is what a call of [session.$authorize()] does: it returns,
    or it throws. *)
Record Session := {
  userId : option Z;
  orgId : option Z;
  authorize : Outcome unit;
}.

Record Ctx := { session : Session }.

Definition resolver_zod {I} (schema : JsValue -> ZodResult I) (raw : JsValue) : M I :=
  match schema raw with
  | inl issues => throw (ZodError issues)
  | inr input => ret input
  end.

Definition resolver_authorize (ctx : Ctx) : M unit := fun w => (authorize (session ctx), w).

Definition resolver_pipe {I O} (schema : JsValue -> ZodResult I)
    (handler : I -> Ctx -> M O) (raw : JsValue) (ctx : Ctx) : M O :=
  await input := resolver_zod schema raw in
  await _ := resolver_authorize ctx in
  handler input ctx.

(** ** JavaScript operators on the values at hand *)

(** The guard [if (!orgId) throw ...] on [number | undefined]: [undefined]
    and [0] are falsy; past the guard the value is a number. *)
Definition truthy_number (o : option Z) : option Z :=
  match o with
  | None => None
  | Some n => if bool_decide (n = 0) then None else Some n
  end.

(** [n !== o] with [o : number | undefined] *)
Definition strict_ne (n : Z) (o : option Z) : bool :=
  match o with
  | None => true
  | Some m => negb (bool_decide (n = m))
  end.

(** [s || d] on [string | undefined]: [undefined] and the empty string are
    falsy. *)
Definition or_string (s : option string) (d : string) : string :=
  match s with
  | None => d
  | Some v => if bool_decide (v = "") then d else v
  end.

(** [e || d] on a string enum: every member is a non-empty string. *)
Definition or_enum {E} (e : option E) (d : E) : E :=
  match e with
  | None => d
  | Some v => v
  end.

(** ** The resolvers *)

Section Resolvers.

Variable is_uuid : string -> bool.
Variable gen_random_uuid : nat -> string.

Definition where_id_is (i : string) : PlanningProjectWhereInput :=
  {| where_id := Some i; where_organizationId := None; where_status := None |}.

(** [const { id, ...data } = input] *)
Definition rest_data (input : UpdatePlanningProjectInput) : PlanningProjectUpdateInput :=
  {| data_name := upd_name input;
     data_description := upd_description input;
     data_type := upd_type input;
     data_status := upd_status input;
     data_config := upd_config input;
     data_conversationHistory := upd_conversationHistory input |}.

Definition updatePlanningProject_handler (input : UpdatePlanningProjectInput) (ctx : Ctx)
    : M PlanningProject.t :=
  let id := upd_id input in
  let data := rest_data input in
  await project := db_findFirst (where_id_is id) select_organizationId in
  match project with
  | None => throw (Error "Planning project not found")
  | Some organizationId =>
      if strict_ne organizationId (orgId (session ctx))
      then throw (Error "Not authorized to update this project")
      else
        await updatedProject := db_update id data in
        ret updatedProject
  end.

Definition updatePlanningProject : JsValue -> Ctx -> M PlanningProject.t :=
  resolver_pipe (UpdatePlanningProjectSchema is_uuid) updatePlanningProject_handler.

Record DeleteResult := { success : bool }.

Definition deletePlanningProject_handler (input : IdInput) (ctx : Ctx) : M DeleteResult :=
  let id := inp_id input in
  await project := db_findFirst (where_id_is id) select_organizationId in
  match project with
  | None => throw (Error "Planning project not found")
  | Some organizationId =>
      if strict_ne organizationId (orgId (session ctx))
      then throw (Error "Not authorized to delete this project")
      else
        await _ := db_delete id in
        ret {| success := true |}
  end.

Definition deletePlanningProject : JsValue -> Ctx -> M DeleteResult :=
  resolver_pipe (DeletePlanningProjectSchema is_uuid) deletePlanningProject_handler.

Definition createPlanningProject_handler (input : CreatePlanningProjectInput) (ctx : Ctx)
    : M PlanningProject.t :=
  let name := crt_name input in
  let description := crt_description input in
  let type := crt_type input in
  match truthy_number (orgId (session ctx)) with
  | None => throw (Error "No organization found")
  | Some orgId =>
      await planningProject :=
        db_create gen_random_uuid
          {| new_name := or_string name "Untitled Planning Project";
             new_description := or_string description "";
             new_type := or_enum type CUSTOM;
             new_status := DRAFT;
             new_organizationId := orgId;
             new_createdById := userId (session ctx) |} in
      ret planningProject
  end.

Definition createPlanningProject : JsValue -> Ctx -> M PlanningProject.t :=
  resolver_pipe CreatePlanningProjectSchema createPlanningProject_handler.

(** [organizationId: ctx.session.orgId!]: the assertion is erased by the
    compiler, so a session without organization puts [undefined] there. *)
Definition getPlanningProject_handler (input : IdInput) (ctx : Ctx)
    : M PlanningProjectDetail :=
  let id := inp_id input in
  await project :=
    db_findFirst
      {| where_id := Some id;
         where_organizationId := orgId (session ctx);
         where_status := None |}
      detail in
  match project with
  | None => throw (Error "Planning project not found")
  | Some project => ret project
  end.

Definition getPlanningProject : JsValue -> Ctx -> M PlanningProjectDetail :=
  resolver_pipe (GetPlanningProjectSchema is_uuid) getPlanningProject_handler.

Definition getPlanningProjects_handler (input : GetPlanningProjectsInput) (ctx : Ctx)
    : M (list PlanningProjectListItem) :=
  let status := inp_status input in
  match truthy_number (orgId (session ctx)) with
  | None => throw (Error "No organization found")
  | Some orgId =>
      await projects :=
        db_findMany
          {| where_id := None;
             where_organizationId := Some orgId;
             where_status := status |}
          list_item in
      ret projects
  end.

Definition getPlanningProjects : JsValue -> Ctx -> M (list PlanningProjectListItem) :=
  resolver_pipe GetPlanningProjectsSchema getPlanningProjects_handler.

End Resolvers.

(** ** The project list component

    [handleDelete] of [PlanningProjectList].  What the browser, the RPC
    client and the query cache answer is given by the environment; what the
    component does to them is recorded in order. *)

Inductive UiEffect :=
| window_confirm (message : string)
| call_deletePlanningProject (input : JsValue)
| invalidateQuery_getPlanningProjects
| toast_success (message : string)
| toast_error (message : string)
| Sentry_captureException (error : Exception).

Definition UI (A : Type) : Type := Eff (list UiEffect) A.

Definition effect {A} (e : UiEffect) (answer : Outcome A) : UI A :=
  fun trace => (answer, (trace ++ [e])%list).

Definition dquote : string := String (Ascii.ascii_of_nat 34) EmptyString.

Section PlanningProjectList.

(** the answer of the user to [confirm(message)] *)
Variable confirm : string -> bool.
(** the settled promise of [useMutation(deletePlanningProject)] *)
Variable deletePlanningProjectMutation : JsValue -> Outcome DeleteResult.
(** the settled promise of [invalidateQuery(getPlanningProjects, {})] *)
Variable invalidateQuery : Outcome unit.

Definition handleDelete (id name : string) : UI unit :=
  let message := ("Are you sure you want to delete " ++ dquote ++ name ++ dquote ++ "?")%string in
  await confirmed := effect (window_confirm message) (Return (confirm message)) in
  if negb confirmed then ret tt
  else
    try_catch
      (let input := JsObject [("id", JsString id)] in
       await _ := effect (call_deletePlanningProject input)
                    (deletePlanningProjectMutation input) in
       await _ := effect invalidateQuery_getPlanningProjects invalidateQuery in
       effect (toast_success "Planning project deleted") (Return tt))
      (fun error =>
         await _ := effect (Sentry_captureException error) (Return tt) in
         effect (toast_error "Failed to delete planning project") (Return tt)).

End PlanningProjectList.

(** ** The push endpoint of the synchronisation protocol

    [pages/api/replicache-push.ts] and the mutators it dispatches to are not
    among the sources at hand; the endpoint below is the one the design
    document describes (its section on the push endpoint), over a dispatcher
    that is left abstract. *)

Module Push.

Inductive MutationResult :=
| ok
| alreadyApplied
| validationError (detail : string)
| conflict (detail : string).

Record MutationInfo := { info_id : nat; result : MutationResult }.

Record PushResponse := { mutationInfos : list MutationInfo; newVersion : nat }.

Section Endpoint.

Variable DocumentState : Type.
Variable Args : Type.

(** [apply(state, mutationName, args) -> newState | ValidationError] *)
Variable apply : DocumentState -> string -> Args -> string + DocumentState.

(** the precondition of a mutation that an intervening remote mutation
    broke, if any *)
Variable broken_precondition : DocumentState -> string -> Args -> option string.

Record Mutation := {
  id : nat;
  name : string;
  args : Args;
  clientId : string;
  timestamp : Z;
}.

Record PushRequest := {
  req_clientId : string;
  mutations : list Mutation;
  lastMutationId : nat;
}.

(** Modelled from the spec: the state of the push endpoint, whose code is
    missing: the document, its single version counter, and for each client
    the mutation ids recorded as applied. *)
Record Server := {
  document : DocumentState;
  version : nat;
  applied : gmap string (gset nat);
}.

Definition recorded (client : string) (i : nat) (srv : Server) : Prop :=
  i ∈ default ∅ (applied srv !! client).

#[global] Instance recorded_dec client i srv : Decision (recorded client i srv).
Proof. unfold recorded. apply _. Defined.

Definition record_applied (client : string) (i : nat) (srv : Server)
    : gmap string (gset nat) :=
  <[client := {[i]} ∪ default ∅ (applied srv !! client)]> (applied srv).

(** Modelled from the spec: the treatment of one mutation by the push
    endpoint, whose code is missing.  A mutation id already recorded as
    applied for the client is skipped and reported [alreadyApplied]; a
    mutation the dispatcher rejects leaves the state as it is; every
    other mutation is applied against the current state, also when a
    precondition of it is broken (reported [conflict]), is recorded as
    applied and stamps the next version. *)
Definition push_mutation (client : string) (m : Mutation) (srv : Server)
    : MutationInfo * Server :=
  if bool_decide (recorded client (id m) srv)
  then ({| info_id := id m; result := alreadyApplied |}, srv)
  else
    match apply (document srv) (name m) (args m) with
    | inl detail => ({| info_id := id m; result := validationError detail |}, srv)
    | inr state' =>
        ({| info_id := id m;
            result := match broken_precondition (document srv) (name m) (args m) with
                      | Some detail => conflict detail
                      | None => ok
                      end |},
         {| document := state';
            version := S (version srv);
            applied := record_applied client (id m) srv |})
    end.

(** Modelled from the spec: the mutations of a batch are treated
    strictly in submission order, the failure of one does not undo the
    earlier ones. *)
Fixpoint push_mutations (client : string) (ms : list Mutation) (srv : Server)
    : list MutationInfo * Server :=
  match ms with
  | [] => ([], srv)
  | m :: rest =>
      let '(info, srv1) := push_mutation client m srv in
      let '(infos, srv2) := push_mutations client rest srv1 in
      (info :: infos, srv2)
  end.

(** Modelled from the spec: the push endpoint, whose code is missing:
    request [{clientId, mutations, lastMutationId}], response
    [{mutationInfos, newVersion}]. *)
Definition push (req : PushRequest) (srv : Server) : PushResponse * Server :=
  let '(infos, srv') := push_mutations (req_clientId req) (mutations req) srv in
  ({| mutationInfos := infos; newVersion := version srv' |}, srv').

(** Modelled from the spec: the requests the endpoint serves, one after
    the other (the pushes on one document are serialized). *)
Fixpoint pushes (reqs : list PushRequest) (srv : Server) : Server :=
  match reqs with
  | [] => srv
  | req :: rest => pushes rest (snd (push req srv))
  end.

End Endpoint.

Arguments id {Args} _.
Arguments name {Args} _.
Arguments args {Args} _.
Arguments req_clientId {Args} _.
Arguments mutations {Args} _.
Arguments document {DocumentState} _.
Arguments version {DocumentState} _.
Arguments applied {DocumentState} _.
Arguments recorded {DocumentState} _ _ _.

End Push.

(** ** The create popover

    [CreatePlanningProject] of [app/components/create_planning_project.tsx]:
    the schema of its form and the [onSubmit] of the form. *)

(** [try { ... } finally { finalizer }]: the finalizer runs whatever the
    outcome of the body is, and the outcome stays unless the finalizer
    throws. *)
Definition finally {S A} (body : Eff S A) (finalizer : Eff S unit) : Eff S A :=
  fun s =>
    match body s with
    | (outcome, s') =>
        match finalizer s' with
        | (Return _, s'') => (outcome, s'')
        | (Throw e, s'') => (Throw e, s'')
        end
    end.

Module CreatePlanningProjectForm.

(** The issues of the form schema: those of the schemas above and the
    [too_small] of [z.string().min(1, message)]. *)
Inductive FormIssue :=
| schema_issue (issue : ZodIssue)
| too_small (path : list string) (message : string).

Definition FormResult (A : Type) : Type := list FormIssue + A.

Definition lift {A} (r : ZodResult A) : FormResult A :=
  match r with
  | inl issues => inl (schema_issue <$> issues)
  | inr a => inr a
  end.

Definition z_string_min (n : nat) (message : string) (path : list string) (v : JsValue)
    : FormResult string :=
  match z_string path v with
  | inl issues => inl (schema_issue <$> issues)
  | inr s => if (String.length s <? n)%nat then inl [too_small path message] else inr s
  end.

Definition form_issues_of {A} (r : FormResult A) : list FormIssue :=
  match r with inl issues => issues | inr _ => [] end.

Record FormValues := {
  name : string;
  type : PlanningProjectType;
  description : option string;
}.

Definition CreatePlanningProjectSchema (v : JsValue) : FormResult FormValues :=
  match v with
  | JsObject props =>
      let name := z_string_min 1 "Name is required" ["name"] (get_prop "name" props) in
      let type := lift (z_nativeEnum PlanningProjectType_values ["type"]
                          (get_prop "type" props)) in
      let description := lift (z_optional z_string ["description"]
                                 (get_prop "description" props)) in
      match name, type, description with
      | inr n, inr t, inr d => inr {| name := n; type := t; description := d |}
      | _, _, _ =>
          inl (form_issues_of name ++ form_issues_of type ++ form_issues_of description)%list
      end
  | _ => inl [schema_issue (mkIssue invalid_type [])]
  end.

Inductive Effect :=
| call_createPlanningProject (values : JsValue)
| invalidateQuery_getPlanningProjects
| toast_success (message : string)
| toast_error (message : string)
| Sentry_captureException (error : Exception)
| actions_resetForm.

(** The two [useState] cells of the component and what it did so far. *)
Record State := {
  open : bool;
  isSubmitting : bool;
  trace : list Effect;
}.

Definition setOpen (b : bool) : Eff State unit := fun s =>
  (Return tt, {| open := b; isSubmitting := isSubmitting s; trace := trace s |}).

Definition setIsSubmitting (b : bool) : Eff State unit := fun s =>
  (Return tt, {| open := open s; isSubmitting := b; trace := trace s |}).

Definition effect {A} (e : Effect) (answer : Outcome A) : Eff State A := fun s =>
  (answer, {| open := open s; isSubmitting := isSubmitting s;
              trace := (trace s ++ [e])%list |}).

Section OnSubmit.

(** the settled promise of [useMutation(createPlanningProject)] *)
Variable createPlanningProjectMutation : JsValue -> Outcome PlanningProject.t.
(** the settled promise of [invalidateQuery(getPlanningProjects, {})] *)
Variable invalidateQuery : Outcome unit.

Definition onSubmit (values : JsValue) : Eff State unit :=
  await _ := setIsSubmitting true in
  finally
    (try_catch
       (await project := effect (call_createPlanningProject values)
                           (createPlanningProjectMutation values) in
        await _ := effect invalidateQuery_getPlanningProjects invalidateQuery in
        await _ := effect (toast_success "Planning project created") (Return tt) in
        await _ := effect actions_resetForm (Return tt) in
        setOpen false)
       (fun error =>
          await _ := effect (Sentry_captureException error) (Return tt) in
          effect (toast_error "Failed to create planning project") (Return tt)))
    (setIsSubmitting false).

End OnSubmit.

End CreatePlanningProjectForm.

(** ** The index page

    [getServerSideProps] of the page that shows the list: a session without
    user is sent to the sign-in page, a session without organization to the
    page that creates one. *)

Module IndexPage.




End IndexPage.

(** ** What the list shows

    The body of [PlanningProjectList] past [handleDelete]: the empty state
    or one row per project. *)

Module PlanningProjectListView.

Definition PROJECT_TYPE_LABELS (t : PlanningProjectType) : string :=
  match t with
  | CUSTOM => "Custom"
  | COMPREHENSIVE_PLAN => "Comprehensive Plan"
  | BIKE_PLAN => "Bike Plan"
  | PEDESTRIAN_PLAN => "Pedestrian Plan"
  | WALKABILITY_STUDY => "Walkability Study"
  | TRANSIT_RIDERSHIP_FORECAST => "Transit Ridership"
  | SS4A_SAFETY_PLAN => "SS4A Safety Plan"
  | FOOD_DESERT_ANALYSIS => "Food Desert Analysis"
  | COMMUNITY_HEALTH_PLAN => "Community Health Plan"
  | NEIGHBORHOOD_PLAN => "Neighborhood Plan"
  | ROAD_DIET_ANALYSIS => "Road Diet Analysis"
  | ROADWAY_REMOVAL_FOR_PARKS => "Roadway Removal"
  end.

Definition STATUS_COLORS (s : PlanningProjectStatus) : string :=
  match s with
  | DRAFT => "bg-gray-100 text-gray-800"
  | SCOPING => "bg-blue-100 text-blue-800"
  | IN_PROGRESS => "bg-yellow-100 text-yellow-800"
  | REVIEW => "bg-purple-100 text-purple-800"
  | COMPLETE => "bg-green-100 text-green-800"
  | ARCHIVED => "bg-gray-100 text-gray-500"
  end.

(** The string a member of the enum is at run time. *)
Definition status_string (s : PlanningProjectStatus) : string :=
  match s with
  | DRAFT => "DRAFT"
  | SCOPING => "SCOPING"
  | IN_PROGRESS => "IN_PROGRESS"
  | REVIEW => "REVIEW"
  | COMPLETE => "COMPLETE"
  | ARCHIVED => "ARCHIVED"
  end.

(** [s.replace(c, d)] with one-character strings: the first occurrence
    only. *)
Fixpoint replace (c d : Ascii.ascii) (s : string) : string :=
  match s with
  | EmptyString => EmptyString
  | String x rest =>
      if Ascii.eqb x c then String d rest else String x (replace c d rest)
  end.

Definition underscore : Ascii.ascii := Ascii.ascii_of_nat 95.
Definition space : Ascii.ascii := Ascii.ascii_of_nat 32.

Record Row := {
  key : string;
  name : string;
  status_class : string;
  status_text : string;
  type_label : string;
  (** [N map(s)], shown when [_count.linkedMaps > 0] *)
  maps : option nat;
  (** the instant handed to [formatDistanceToNow] *)
  updated : Z;
  (** shown when the description is not empty *)
  description : option string;
  (** the arguments the delete button passes to [handleDelete] *)
  onClick_delete : string * string;
}.

Definition row (project : PlanningProjectListItem) : Row :=
  let p := item_project project in
  {| key := PlanningProject.id p;
     name := PlanningProject.name p;
     status_class := STATUS_COLORS (PlanningProject.status p);
     status_text := replace underscore space (status_string (PlanningProject.status p));
     type_label := PROJECT_TYPE_LABELS (PlanningProject.type p);
     maps := if (0 <? item_count_linkedMaps project)%nat
             then Some (item_count_linkedMaps project) else None;
     updated := PlanningProject.updatedAt p;
     description := if bool_decide (PlanningProject.description p = "")
                    then None else Some (PlanningProject.description p);
     onClick_delete := (PlanningProject.id p, PlanningProject.name p) |}.

Inductive View :=
| EmptyState
| Rows (rows : list Row).

(** [projects] is what [useQuery] handed over. *)
Definition render (projects : option (list PlanningProjectListItem)) : View :=
  match projects with
  | None | Some [] => EmptyState
  | Some items => Rows (row <$> items)
  end.

End PlanningProjectListView.

(** ** Vocabulary of the statements *)

(** The row of primary key [i]. *)
Definition stored (i : string) (w : World) : option PlanningProject.t :=
  List.find (has_id i) (planningProject (db w)).

(** The writes among the Prisma calls issued between [w] and [w']. *)
Definition writes_since (w w' : World) : list PrismaCall :=
  List.filter is_write (drop (length (calls w)) (calls w')).

(** A value that is not a string accepted by [is_uuid]. *)
Definition not_a_uuid (is_uuid : string → bool) (v : JsValue) : Prop :=
  ∀ s, v = JsString s → is_uuid s = false.

(** A value that is supplied and is not the name of a member of the enum. *)
Definition outside_enum {E} (values : list (string * E)) (v : JsValue) : Prop :=
  v ≠ JsUndefined ∧ ∀ s, v = JsString s → enum_lookup values s = None.

(** Between [w] and [w'] nothing but reads happened. *)
Definition quiet (w w' : World) : Prop :=
  db w' = db w ∧ writes_since w w' = [].

(** The properties the schemas of the two mutations with a body name. *)
Definition UpdatePlanningProjectSchema_keys : list string :=
  ["id"; "name"; "description"; "type"; "status"; "config"; "conversationHistory"].

Definition CreatePlanningProjectSchema_keys : list string :=
  ["name"; "description"; "type"].

(** Two objects with the same values under the given keys. *)
Definition same_on (keys : list string) (props props' : list (string * JsValue)) : Prop :=
  ∀ k, In k keys → get_prop k props = get_prop k props'.

(** [id] is the primary key of [PlanningProject]. *)
Definition pk_unique (d : Database) : Prop :=
  NoDup (PlanningProject.id <$> planningProject d).

(** The foreign key of [PlanningProjectMap] to [PlanningProject]: every
    link is the link of a stored project. *)
Definition links_resolve (d : Database) : Prop :=
  ∀ m, In m (planningProjectMap d) →
       ∃ p, In p (planningProject d)
            ∧ PlanningProject.id p = PlanningProjectMap.planningProjectId m.

(** The columns no resolver assigns after the insert. *)
Definition fixed_columns (p : PlanningProject.t) : string * Z * option Z * Z :=
  (PlanningProject.id p, PlanningProject.organizationId p,
   PlanningProject.createdById p, PlanningProject.createdAt p).

(** The number of occurrences of a character. *)
Fixpoint occurrences (c : Ascii.ascii) (s : string) : nat :=
  match s with
  | EmptyString => O
  | String x rest => ((if Ascii.eqb x c then 1 else 0) + occurrences c rest)%nat
  end.

(** ** Fixtures for the concrete runs *)

Module Fixtures.

Definition is_hex (c : Ascii.ascii) : bool :=
  let n := Ascii.nat_of_ascii c in
  ((48 <=? n) && (n <=? 57) || (65 <=? n) && (n <=? 70) || (97 <=? n) && (n <=? 102))%nat.

(** [groups]: the lengths of the hexadecimal groups still to read, the
    first one being the group in progress. *)
Fixpoint hex_groups (groups : list nat) (s : string) : bool :=
  match s, groups with
  | EmptyString, [O] => true
  | String c rest, O :: ((_ :: _) as more) =>
      (Ascii.nat_of_ascii c =? 45)%nat && hex_groups more rest
  | String c rest, S n :: more => is_hex c && hex_groups (n :: more) rest
  | _, _ => false
  end.

(** A stand-in for zod's test: 8-4-4-4-12 hexadecimal digits. *)
Definition is_uuid (s : string) : bool := hex_groups [8; 4; 4; 4; 12]%nat s.

Definition gen_random_uuid (n : nat) : string :=
  match n with
  | O => "7d444840-9dc0-11d1-b245-5ffdce74fad2"
  | _ => "e902893a-9d22-3c7e-a7b8-d6e313b71d9f"
  end.

Definition bike_plan_id : string := "0b0e7a52-3c1f-4a6e-9d2b-5f8c1a2b3c4d".
Definition comp_plan_id : string := "c1a5e2d4-77aa-4b1c-8e0f-112233445566".
Definition food_plan_id : string := "aa11bb22-cc33-4d44-8e55-ff6677889900".

Definition bike_plan : PlanningProject.t :=
  {| PlanningProject.id := bike_plan_id;
     PlanningProject.name := "Bike Plan";
     PlanningProject.description := "Downtown bike infrastructure";
     PlanningProject.type := BIKE_PLAN;
     PlanningProject.status := IN_PROGRESS;
     PlanningProject.organizationId := 1;
     PlanningProject.createdById := Some 1;
     PlanningProject.config := None;
     PlanningProject.conversationHistory := None;
     PlanningProject.createdAt := 1000;
     PlanningProject.updatedAt := 2000 |}.

Definition comp_plan : PlanningProject.t :=
  {| PlanningProject.id := comp_plan_id;
     PlanningProject.name := "Comprehensive Plan";
     PlanningProject.description := "City-wide planning";
     PlanningProject.type := COMPREHENSIVE_PLAN;
     PlanningProject.status := DRAFT;
     PlanningProject.organizationId := 1;
     PlanningProject.createdById := Some 1;
     PlanningProject.config := None;
     PlanningProject.conversationHistory := None;
     PlanningProject.createdAt := 1500;
     PlanningProject.updatedAt := 3000 |}.

(** a project of another organization *)
Definition food_plan : PlanningProject.t :=
  {| PlanningProject.id := food_plan_id;
     PlanningProject.name := "Food Desert Analysis";
     PlanningProject.description := "";
     PlanningProject.type := FOOD_DESERT_ANALYSIS;
     PlanningProject.status := DRAFT;
     PlanningProject.organizationId := 2;
     PlanningProject.createdById := None;
     PlanningProject.config := None;
     PlanningProject.conversationHistory := None;
     PlanningProject.createdAt := 1200;
     PlanningProject.updatedAt := 2500 |}.

Definition john : User.t :=
  {| User.id := 1; User.name := Some "John Doe"; User.email := "john@example.com" |}.

Definition world : World :=
  {| db := {| planningProject := [bike_plan; comp_plan; food_plan];
              planningProjectMap := [];
              user := [john];
              wrappedFeatureCollection := [] |};
     calls := [];
     now := 5000;
     uuid_counter := 0 |}.

(** the context of the tests: [{ userId: 1, orgId: 1, $authorize: vi.fn() }] *)
Definition mockCtx : Ctx :=
  {| session := {| userId := Some 1; orgId := Some 1; authorize := Return tt |} |}.

(** [{ userId: 1, orgId: undefined, $authorize: vi.fn() }] *)
Definition ctxWithoutOrg : Ctx :=
  {| session := {| userId := Some 1; orgId := None; authorize := Return tt |} |}.

Definition id_only (i : string) : JsValue := JsObject [("id", JsString i)].

End Fixtures.

Module PushFixtures.

(** a document that counts its features *)
Definition apply (features : Z) (name : string) (args : Z) : string + Z :=
  if bool_decide (name = "addFeatures") then inr (features + args)
  else inl "unknown mutation".

Definition broken_precondition (features : Z) (name : string) (args : Z) : option string :=
  None.

Definition fresh_server : Push.Server Z :=
  {| Push.document := 0; Push.version := 0; Push.applied := ∅ |}.

Definition m1 : Push.Mutation Z :=
  {| Push.id := 1; Push.name := "addFeatures"; Push.args := 5;
     Push.clientId := "client-a"; Push.timestamp := 1000 |}.

Definition m2 : Push.Mutation Z :=
  {| Push.id := 1; Push.name := "addFeatures"; Push.args := 2;
     Push.clientId := "client-b"; Push.timestamp := 1200 |}.

Definition request (ms : list (Push.Mutation Z)) : Push.PushRequest Z :=
  {| Push.req_clientId := "client-a"; Push.mutations := ms; Push.lastMutationId := 0 |}.

Definition request_b (ms : list (Push.Mutation Z)) : Push.PushRequest Z :=
  {| Push.req_clientId := "client-b"; Push.mutations := ms; Push.lastMutationId := 0 |}.

Definition after_first_push : Push.Server Z :=
  snd (Push.push Z Z apply broken_precondition (request [m1]) fresh_server).

End PushFixtures.

(** A database with links of projects to maps. *)
Module LinkedFixtures.

Definition downtown : WrappedFeatureCollection.t :=
  {| WrappedFeatureCollection.id := "wfc-downtown";
     WrappedFeatureCollection.name := "Downtown";
     WrappedFeatureCollection.description := "Streets of the centre" |}.

Definition bike_link : PlanningProjectMap.t :=
  {| PlanningProjectMap.id := "5c1d2e3f-0a1b-4c2d-8e3f-a4b5c6d7e8f9";
     PlanningProjectMap.planningProjectId := Fixtures.bike_plan_id;
     PlanningProjectMap.wrappedFeatureCollectionId := "wfc-downtown";
     PlanningProjectMap.purpose := Some "network";
     PlanningProjectMap.createdAt := 1100 |}.

Definition food_link : PlanningProjectMap.t :=
  {| PlanningProjectMap.id := "9f8e7d6c-5b4a-4392-8171-605f4e3d2c1b";
     PlanningProjectMap.planningProjectId := Fixtures.food_plan_id;
     PlanningProjectMap.wrappedFeatureCollectionId := "wfc-downtown";
     PlanningProjectMap.purpose := None;
     PlanningProjectMap.createdAt := 1300 |}.

Definition world : World :=
  {| db := {| planningProject := [Fixtures.bike_plan; Fixtures.comp_plan; Fixtures.food_plan];
              planningProjectMap := [bike_link; food_link];
              user := [Fixtures.john];
              wrappedFeatureCollection := [downtown] |};
     calls := [];
     now := 5000;
     uuid_counter := 0 |}.

End LinkedFixtures.

(** * Properties *)

(** ** Reading the store *)

Lemma matches_where_id_is i p : matches (where_id_is i) p = has_id i p.
Proof. unfold matches, where_id_is, has_id; simpl. by rewrite !andb_true_r. Qed.

Lemma find_where_id_is i rows :
  List.find (matches (where_id_is i)) rows = List.find (has_id i) rows.
Proof.
  induction rows as [|p rows IH]; simpl; [done|].
  by rewrite matches_where_id_is, IH.
Qed.

Lemma strict_ne_true n o : o ≠ Some n → strict_ne n o = true.
Proof.
  destruct o as [m|]; simpl; [|done].
  intros Hne. rewrite bool_decide_eq_false_2; [done|]. congruence.
Qed.

Lemma strict_ne_false n o : strict_ne n o = false → o = Some n.
Proof.
  destruct o as [m|]; simpl; [|done].
  intros H. apply negb_false_iff, bool_decide_eq_true in H. by subst.
Qed.

(** Unfolding of the pipeline once the schema and [$authorize] have passed. *)
Lemma resolver_pipe_run {I O} (schema : JsValue → ZodResult I) (handler : I → Ctx → M O)
    raw ctx input w :
  schema raw = inr input →
  authorize (session ctx) = Return tt →
  resolver_pipe schema handler raw ctx w = handler input ctx w.
Proof.
  intros Hs Ha. unfold resolver_pipe, bind, resolver_zod, resolver_authorize.
  rewrite Hs. simpl. by rewrite Ha.
Qed.

Lemma resolver_pipe_invalid {I O} (schema : JsValue → ZodResult I) (handler : I → Ctx → M O)
    raw ctx issues w :
  schema raw = inl issues →
  resolver_pipe schema handler raw ctx w = (Throw (ZodError issues), w).
Proof.
  intros Hs. unfold resolver_pipe, bind, resolver_zod. by rewrite Hs.
Qed.

(** ** Authorization of the writes *)

Lemma writes_since_read w c :
  is_write c = false → writes_since w (log_call c w) = [].
Proof.
  intros Hc. unfold writes_since, log_call; simpl.
  rewrite drop_app_length. simpl. by rewrite Hc.
Qed.

(** The steps every proof about a resolver starts with: past the schema and
    [$authorize], the pipeline is its handler. *)
Ltac enter_handler resolver Hschema Hauth :=
  unfold resolver; rewrite (resolver_pipe_run _ _ _ _ _ _ Hschema Hauth).

(** C1. When the project with the given id exists and its organization is
    not the organization of the session, [updatePlanningProject] and
    [deletePlanningProject] throw their "Not authorized" error; the only
    Prisma call issued is the [findFirst] that read the organization, so no
    write was made and the database is the one before the call. *)
Theorem foreign_project_write_refused
    (is_uuid : string → bool) (ctx : Ctx) (w : World) (i : string) (p : PlanningProject.t) :
  authorize (session ctx) = Return tt →
  stored i w = Some p →
  orgId (session ctx) ≠ Some (PlanningProject.organizationId p) →
  (∀ raw input,
     UpdatePlanningProjectSchema is_uuid raw = inr input → upd_id input = i →
     ∃ w', updatePlanningProject is_uuid raw ctx w
           = (Throw (Error "Not authorized to update this project"), w')
           ∧ db w' = db w
           ∧ stored i w' = Some p
           ∧ calls w' = (calls w ++ [planningProject_findFirst (where_id_is i)])%list
           ∧ writes_since w w' = [])
  ∧ (∀ raw input,
     DeletePlanningProjectSchema is_uuid raw = inr input → inp_id input = i →
     ∃ w', deletePlanningProject is_uuid raw ctx w
           = (Throw (Error "Not authorized to delete this project"), w')
           ∧ db w' = db w
           ∧ stored i w' = Some p
           ∧ calls w' = (calls w ++ [planningProject_findFirst (where_id_is i)])%list
           ∧ writes_since w w' = []).
Proof.
  intros Hauth Hp Horg.
  split; intros raw input Hs Hid.
  - enter_handler updatePlanningProject Hs Hauth.
    unfold updatePlanningProject_handler, bind, db_findFirst.
    rewrite Hid, find_where_id_is. unfold stored in Hp. rewrite Hp. simpl.
    unfold select_organizationId. rewrite (strict_ne_true _ _ Horg).
    eexists. split; [reflexivity|]. repeat split; [done|]. by apply writes_since_read.
  - enter_handler deletePlanningProject Hs Hauth.
    unfold deletePlanningProject_handler, bind, db_findFirst.
    rewrite Hid, find_where_id_is. unfold stored in Hp. rewrite Hp. simpl.
    unfold select_organizationId. rewrite (strict_ne_true _ _ Horg).
    eexists. split; [reflexivity|]. repeat split; [done|]. by apply writes_since_read.
Qed.

Lemma foreign_project_write_refused_witness :
  (∃ w', updatePlanningProject Fixtures.is_uuid
           (JsObject [("id", JsString Fixtures.food_plan_id); ("name", JsString "Mine now")])
           Fixtures.mockCtx Fixtures.world
         = (Throw (Error "Not authorized to update this project"), w')
         ∧ db w' = db Fixtures.world
         ∧ stored Fixtures.food_plan_id w' = Some Fixtures.food_plan
         ∧ calls w' = [planningProject_findFirst (where_id_is Fixtures.food_plan_id)]
         ∧ writes_since Fixtures.world w' = [])
  ∧ (∃ w', deletePlanningProject Fixtures.is_uuid (Fixtures.id_only Fixtures.food_plan_id)
             Fixtures.mockCtx Fixtures.world
           = (Throw (Error "Not authorized to delete this project"), w')
           ∧ db w' = db Fixtures.world
           ∧ stored Fixtures.food_plan_id w' = Some Fixtures.food_plan
           ∧ calls w' = [planningProject_findFirst (where_id_is Fixtures.food_plan_id)]
           ∧ writes_since Fixtures.world w' = []).
Proof.
  destruct (foreign_project_write_refused Fixtures.is_uuid Fixtures.mockCtx Fixtures.world
              Fixtures.food_plan_id Fixtures.food_plan) as [Hu Hd].
  - reflexivity.
  - reflexivity.
  - simpl. discriminate.
  - split.
    + apply (Hu _ {| upd_id := Fixtures.food_plan_id; upd_name := Some "Mine now";
                     upd_description := None; upd_type := None; upd_status := None;
                     upd_config := None; upd_conversationHistory := None |});
        reflexivity.
    + apply (Hd _ {| inp_id := Fixtures.food_plan_id |}); reflexivity.
Defined.

(** ** Validation *)

Lemma z_string_uuid_rejects is_uuid path v :
  not_a_uuid is_uuid v → ∃ issues, z_string_uuid is_uuid path v = inl issues.
Proof.
  intros Hv. unfold z_string_uuid, z_string.
  destruct v; try (eexists; reflexivity).
  rewrite (Hv s eq_refl). eexists; reflexivity.
Qed.

Lemma z_optional_nativeEnum_rejects {E} (values : list (string * E)) path v :
  outside_enum values v → ∃ issues, z_optional (z_nativeEnum values) path v = inl issues.
Proof.
  intros [Hdef Hout]. unfold z_optional, z_nativeEnum.
  destruct v; try (eexists; reflexivity); [done|].
  rewrite (Hout s eq_refl). eexists; reflexivity.
Qed.

Lemma UpdatePlanningProjectSchema_rejects_id is_uuid props :
  not_a_uuid is_uuid (get_prop "id" props) →
  ∃ issues, UpdatePlanningProjectSchema is_uuid (JsObject props) = inl issues.
Proof.
  intros Hv. unfold UpdatePlanningProjectSchema, z_object.
  destruct (z_string_uuid_rejects is_uuid ["id"] _ Hv) as [issues ->].
  eexists; reflexivity.
Qed.

Lemma IdSchema_rejects_id is_uuid props :
  not_a_uuid is_uuid (get_prop "id" props) →
  (∃ issues, DeletePlanningProjectSchema is_uuid (JsObject props) = inl issues)
  ∧ (∃ issues, GetPlanningProjectSchema is_uuid (JsObject props) = inl issues).
Proof.
  intros Hv. unfold DeletePlanningProjectSchema, GetPlanningProjectSchema, z_object.
  destruct (z_string_uuid_rejects is_uuid ["id"] _ Hv) as [issues ->].
  split; eexists; reflexivity.
Qed.

Lemma CreatePlanningProjectSchema_rejects_type props :
  outside_enum PlanningProjectType_values (get_prop "type" props) →
  ∃ issues, CreatePlanningProjectSchema (JsObject props) = inl issues.
Proof.
  intros Hv. unfold CreatePlanningProjectSchema, z_object.
  destruct (z_optional_nativeEnum_rejects PlanningProjectType_values ["type"] _ Hv)
    as [issues ->].
  destruct (z_optional z_string ["name"] _), (z_optional z_string ["description"] _);
    eexists; reflexivity.
Qed.

(** C2. An input that its schema rejects makes the resolver throw the
    [ZodError] of the schema in the world it was called in: no Prisma call
    is logged and the database is the same.  This holds for the five
    resolvers; an [id] that is not a UUID is such an input for
    [updatePlanningProject], [deletePlanningProject] and
    [getPlanningProject], and a [type] outside [PlanningProjectType] for
    [createPlanningProject]. *)
Theorem invalid_input_rejected_without_db_call
    (is_uuid : string → bool) (gen_random_uuid : nat → string) (ctx : Ctx) (w : World) :
  (∀ raw issues,
     (UpdatePlanningProjectSchema is_uuid raw = inl issues →
      updatePlanningProject is_uuid raw ctx w = (Throw (ZodError issues), w))
     ∧ (DeletePlanningProjectSchema is_uuid raw = inl issues →
        deletePlanningProject is_uuid raw ctx w = (Throw (ZodError issues), w))
     ∧ (GetPlanningProjectSchema is_uuid raw = inl issues →
        getPlanningProject is_uuid raw ctx w = (Throw (ZodError issues), w))
     ∧ (CreatePlanningProjectSchema raw = inl issues →
        createPlanningProject gen_random_uuid raw ctx w = (Throw (ZodError issues), w))
     ∧ (GetPlanningProjectsSchema raw = inl issues →
        getPlanningProjects raw ctx w = (Throw (ZodError issues), w)))
  ∧ (∀ props,
       not_a_uuid is_uuid (get_prop "id" props) →
       (∃ issues, updatePlanningProject is_uuid (JsObject props) ctx w
                  = (Throw (ZodError issues), w))
       ∧ (∃ issues, deletePlanningProject is_uuid (JsObject props) ctx w
                    = (Throw (ZodError issues), w))
       ∧ (∃ issues, getPlanningProject is_uuid (JsObject props) ctx w
                    = (Throw (ZodError issues), w)))
  ∧ (∀ props,
       outside_enum PlanningProjectType_values (get_prop "type" props) →
       ∃ issues, createPlanningProject gen_random_uuid (JsObject props) ctx w
                 = (Throw (ZodError issues), w)).
Proof.
  split; [|split].
  - intros raw issues. repeat split; intros Hs; by apply resolver_pipe_invalid.
  - intros props Hid.
    destruct (UpdatePlanningProjectSchema_rejects_id is_uuid props Hid) as [i1 H1].
    destruct (IdSchema_rejects_id is_uuid props Hid) as [[i2 H2] [i3 H3]].
    repeat split; eexists; by apply resolver_pipe_invalid.
  - intros props Hty.
    destruct (CreatePlanningProjectSchema_rejects_type props Hty) as [i1 H1].
    eexists; by apply resolver_pipe_invalid.
Qed.

Lemma invalid_input_rejected_without_db_call_witness :
  (∃ issues, updatePlanningProject Fixtures.is_uuid (Fixtures.id_only "project-1")
               Fixtures.mockCtx Fixtures.world
             = (Throw (ZodError issues), Fixtures.world))
  ∧ (∃ issues, createPlanningProject Fixtures.gen_random_uuid
                 (JsObject [("name", JsString "Plan"); ("type", JsString "HIGHWAY_PLAN")])
                 Fixtures.mockCtx Fixtures.world
               = (Throw (ZodError issues), Fixtures.world)).
Proof.
  destruct (invalid_input_rejected_without_db_call Fixtures.is_uuid Fixtures.gen_random_uuid
              Fixtures.mockCtx Fixtures.world) as (_ & Hid & Hty).
  split.
  - apply (Hid [("id", JsString "project-1")]).
    intros s Hs. injection Hs as <-. reflexivity.
  - apply (Hty [("name", JsString "Plan"); ("type", JsString "HIGHWAY_PLAN")]).
    split; [discriminate|]. intros s Hs. injection Hs as <-. reflexivity.
Defined.

(** ** Scoping of the list to the organization *)

Lemma truthy_number_Some o n : o = Some n → n ≠ 0 → truthy_number o = Some n.
Proof. intros -> Hn. simpl. by rewrite bool_decide_eq_false_2. Qed.

Lemma matches_org_status org st p :
  matches {| where_id := None; where_organizationId := Some org; where_status := st |} p = true
  ↔ PlanningProject.organizationId p = org
    ∧ ∀ s, st = Some s → PlanningProject.status p = s.
Proof.
  unfold matches; simpl. rewrite andb_true_iff, bool_decide_eq_true.
  destruct st as [s|]; simpl.
  - rewrite bool_decide_eq_true. split.
    + intros [Ho Hs]. split; [done|]. by intros ? [= <-].
    + intros [Ho Hs]. auto.
  - split; [intros [Ho _]; by split | intros [Ho _]; by split].
Qed.

Lemma item_project_list_item d (rows : list PlanningProject.t) :
  item_project <$> (list_item d <$> rows) = rows.
Proof. induction rows as [|p rows IH]; csimpl; [done|]. by rewrite IH. Qed.

(** What [getPlanningProjects] answers to a session of organization [org]. *)
Lemma getPlanningProjects_handler_run input ctx org w :
  truthy_number (orgId (session ctx)) = Some org →
  getPlanningProjects_handler input ctx w
  = (Return (list_item (db w) <$>
               merge_sort updatedAt_desc
                 (List.filter
                    (matches {| where_id := None; where_organizationId := Some org;
                                where_status := inp_status input |})
                    (planningProject (db w)))),
     log_call (planningProject_findMany
                 {| where_id := None; where_organizationId := Some org;
                    where_status := inp_status input |}) w).
Proof. intros Ho. unfold getPlanningProjects_handler. by rewrite Ho. Qed.

(** C3. [getPlanningProjects] answers a session of organization [org] with
    exactly the stored projects of [org] (those of the requested status when
    one is given), so no project of another organization is in the list; a
    session without [orgId] gets the error "No organization found" from
    [getPlanningProjects] and from [createPlanningProject], and nothing is
    read or written. *)
Theorem getPlanningProjects_scoped_to_organization
    (gen_random_uuid : nat → string) (raw : JsValue) (ctx : Ctx) (w : World) :
  authorize (session ctx) = Return tt →
  (∀ org input,
     orgId (session ctx) = Some org → org ≠ 0 →
     GetPlanningProjectsSchema raw = inr input →
     ∃ items w',
       getPlanningProjects raw ctx w = (Return items, w')
       ∧ db w' = db w
       ∧ (∀ p, p ∈ item_project <$> items
               ↔ p ∈ planningProject (db w)
                 ∧ PlanningProject.organizationId p = org
                 ∧ ∀ s, inp_status input = Some s → PlanningProject.status p = s)
       ∧ Forall (λ p, PlanningProject.organizationId p = org) (item_project <$> items))
  ∧ (orgId (session ctx) = None →
     (∀ input, GetPlanningProjectsSchema raw = inr input →
        getPlanningProjects raw ctx w = (Throw (Error "No organization found"), w))
     ∧ (∀ input, CreatePlanningProjectSchema raw = inr input →
        createPlanningProject gen_random_uuid raw ctx w
        = (Throw (Error "No organization found"), w))).
Proof.
  intros Hauth. split.
  - intros org input Horg Hnz Hs.
    enter_handler getPlanningProjects Hs Hauth.
    rewrite (getPlanningProjects_handler_run _ _ org) by by apply truthy_number_Some.
    eexists _, _. split; [reflexivity|]. split; [reflexivity|].
    rewrite item_project_list_item.
    assert (Hmem : ∀ p,
      p ∈ merge_sort updatedAt_desc
            (List.filter
               (matches {| where_id := None; where_organizationId := Some org;
                           where_status := inp_status input |})
               (planningProject (db w)))
      ↔ p ∈ planningProject (db w)
        ∧ PlanningProject.organizationId p = org
        ∧ ∀ s, inp_status input = Some s → PlanningProject.status p = s).
    { intros p. rewrite merge_sort_Permutation.
      rewrite !list_elem_of_In, filter_In, matches_org_status. tauto. }
    split; [exact Hmem|].
    apply Forall_forall. intros p Hp. apply Hmem in Hp. tauto.
  - intros Hnone. split; intros input Hs.
    + enter_handler getPlanningProjects Hs Hauth.
      unfold getPlanningProjects_handler. by rewrite Hnone.
    + enter_handler createPlanningProject Hs Hauth.
      unfold createPlanningProject_handler. by rewrite Hnone.
Qed.

Lemma getPlanningProjects_scoped_to_organization_witness :
  (∃ items w',
     getPlanningProjects (JsObject []) Fixtures.mockCtx Fixtures.world = (Return items, w')
     ∧ db w' = db Fixtures.world
     ∧ (∀ p, p ∈ item_project <$> items
             ↔ p ∈ planningProject (db Fixtures.world)
               ∧ PlanningProject.organizationId p = 1
               ∧ ∀ s, None = Some s → PlanningProject.status p = s)
     ∧ Forall (λ p, PlanningProject.organizationId p = 1) (item_project <$> items))
  ∧ getPlanningProjects (JsObject []) Fixtures.ctxWithoutOrg Fixtures.world
    = (Throw (Error "No organization found"), Fixtures.world)
  ∧ createPlanningProject Fixtures.gen_random_uuid (JsObject []) Fixtures.ctxWithoutOrg
      Fixtures.world
    = (Throw (Error "No organization found"), Fixtures.world).
Proof.
  split; [|split].
  - destruct (getPlanningProjects_scoped_to_organization Fixtures.gen_random_uuid
                (JsObject []) Fixtures.mockCtx Fixtures.world eq_refl) as [H _].
    apply (H 1 {| inp_status := None |}); [reflexivity | discriminate | reflexivity].
  - destruct (getPlanningProjects_scoped_to_organization Fixtures.gen_random_uuid
                (JsObject []) Fixtures.ctxWithoutOrg Fixtures.world eq_refl) as [_ H].
    destruct (H eq_refl) as [Hget _].
    apply (Hget {| inp_status := None |}). reflexivity.
  - destruct (getPlanningProjects_scoped_to_organization Fixtures.gen_random_uuid
                (JsObject []) Fixtures.ctxWithoutOrg Fixtures.world eq_refl) as [_ H].
    destruct (H eq_refl) as [_ Hcreate].
    apply (Hcreate {| crt_name := None; crt_description := None; crt_type := None |}).
    reflexivity.
Defined.

(** ** Defaults of a new project *)

Lemma CreatePlanningProjectSchema_fields props input :
  CreatePlanningProjectSchema (JsObject props) = inr input →
  z_optional z_string ["name"] (get_prop "name" props) = inr (crt_name input)
  ∧ z_optional z_string ["description"] (get_prop "description" props)
    = inr (crt_description input)
  ∧ z_optional (z_nativeEnum PlanningProjectType_values) ["type"] (get_prop "type" props)
    = inr (crt_type input).
Proof.
  unfold CreatePlanningProjectSchema, z_object.
  destruct (z_optional z_string ["name"] _) as [?|n],
           (z_optional z_string ["description"] _) as [?|d],
           (z_optional (z_nativeEnum PlanningProjectType_values) ["type"] _) as [?|t];
    try discriminate.
  by intros [= <-].
Qed.

Lemma find_app_fresh {A} (f : A → bool) (l : list A) (x : A) :
  List.find f l = None → f x = true → List.find f (l ++ [x]) = Some x.
Proof.
  induction l as [|y l IH]; simpl; intros Hnone Hx.
  - by rewrite Hx.
  - destruct (f y); [done|]. by apply IH.
Qed.

(** C4. [createPlanningProject] calls [db.planningProject.create] with a
    name that is "Untitled Planning Project" when the input has no name or
    the empty one, a description that is empty when the input has none, the
    type [CUSTOM] when the input has none and the status [DRAFT], whatever
    the input holds; the project the database then inserts and the call
    returns has these values. *)
Theorem createPlanningProject_defaults
    (gen_random_uuid : nat → string) (props : list (string * JsValue)) (ctx : Ctx)
    (w : World) (org : Z) (input : CreatePlanningProjectInput) :
  authorize (session ctx) = Return tt →
  orgId (session ctx) = Some org → org ≠ 0 →
  CreatePlanningProjectSchema (JsObject props) = inr input →
  ∃ data out w',
    createPlanningProject gen_random_uuid (JsObject props) ctx w = (out, w')
    ∧ calls w' = (calls w ++ [planningProject_create data])%list
    ∧ new_status data = DRAFT
    ∧ (get_prop "name" props = JsUndefined ∨ get_prop "name" props = JsString "" →
       new_name data = "Untitled Planning Project")
    ∧ (∀ s, get_prop "name" props = JsString s → s ≠ "" → new_name data = s)
    ∧ (get_prop "description" props = JsUndefined → new_description data = "")
    ∧ (get_prop "type" props = JsUndefined → new_type data = CUSTOM)
    ∧ (stored (gen_random_uuid (uuid_counter w)) w = None →
       ∃ p, out = Return p
            ∧ stored (PlanningProject.id p) w' = Some p
            ∧ PlanningProject.name p = new_name data
            ∧ PlanningProject.description p = new_description data
            ∧ PlanningProject.type p = new_type data
            ∧ PlanningProject.status p = DRAFT).
Proof.
  intros Hauth Horg Hnz Hs.
  destruct (CreatePlanningProjectSchema_fields _ _ Hs) as (Hname & Hdesc & Htype).
  enter_handler createPlanningProject Hs Hauth.
  unfold createPlanningProject_handler.
  rewrite (truthy_number_Some _ _ Horg Hnz).
  unfold bind, db_create. fold (stored (gen_random_uuid (uuid_counter w)) w).
  set (data := {| new_name := or_string (crt_name input) "Untitled Planning Project";
                  new_description := or_string (crt_description input) "";
                  new_type := or_enum (crt_type input) CUSTOM;
                  new_status := DRAFT;
                  new_organizationId := org;
                  new_createdById := userId (session ctx) |}).
  assert (Hdefaults :
    (get_prop "name" props = JsUndefined ∨ get_prop "name" props = JsString "" →
     new_name data = "Untitled Planning Project")
    ∧ (∀ s, get_prop "name" props = JsString s → s ≠ "" → new_name data = s)
    ∧ (get_prop "description" props = JsUndefined → new_description data = "")
    ∧ (get_prop "type" props = JsUndefined → new_type data = CUSTOM)).
  { subst data; simpl. repeat split.
    - intros [Hn|Hn]; rewrite Hn in Hname; simpl in Hname; by injection Hname as <-.
    - intros s Hn Hne. rewrite Hn in Hname; simpl in Hname. injection Hname as <-.
      simpl. by rewrite bool_decide_eq_false_2.
    - intros Hd. rewrite Hd in Hdesc; simpl in Hdesc. by injection Hdesc as <-.
    - intros Ht. rewrite Ht in Htype; simpl in Htype. by injection Htype as <-. }
  destruct Hdefaults as (Hn1 & Hn2 & Hd & Ht).
  exists data.
  destruct (stored (gen_random_uuid (uuid_counter w)) w) as [q|] eqn:Hfresh.
  - eexists _, _. split; [reflexivity|]. simpl. by repeat (split; [done|]).
  - eexists _, _. split; [reflexivity|]. simpl. repeat (split; [done|]).
    intros _. eexists. split; [reflexivity|]. simpl. split; [|done].
    unfold stored; simpl. apply find_app_fresh; [exact Hfresh|].
    unfold has_id; simpl. by apply bool_decide_eq_true.
Qed.

Lemma createPlanningProject_defaults_witness :
  ∃ data out w',
    createPlanningProject Fixtures.gen_random_uuid
      (JsObject [("name", JsString ""); ("status", JsString "COMPLETE")])
      Fixtures.mockCtx Fixtures.world = (out, w')
    ∧ calls w' = [planningProject_create data]
    ∧ new_status data = DRAFT
    ∧ (JsString "" = JsUndefined ∨ JsString "" = JsString "" →
       new_name data = "Untitled Planning Project")
    ∧ (∀ s, JsString "" = JsString s → s ≠ "" → new_name data = s)
    ∧ (JsUndefined = JsUndefined → new_description data = "")
    ∧ (JsUndefined = JsUndefined → new_type data = CUSTOM)
    ∧ (stored (Fixtures.gen_random_uuid 0) Fixtures.world = None →
       ∃ p, out = Return p
            ∧ stored (PlanningProject.id p) w' = Some p
            ∧ PlanningProject.name p = new_name data
            ∧ PlanningProject.description p = new_description data
            ∧ PlanningProject.type p = new_type data
            ∧ PlanningProject.status p = DRAFT).
Proof.
  apply (createPlanningProject_defaults Fixtures.gen_random_uuid
           [("name", JsString ""); ("status", JsString "COMPLETE")]
           Fixtures.mockCtx Fixtures.world 1
           {| crt_name := Some ""; crt_description := None; crt_type := None |});
    [reflexivity | reflexivity | discriminate | reflexivity].
Defined.

(** The first test of [createPlanningProject.test.ts]: with the input [{}]
    the call to [create] carries the defaults. *)
Example creates_a_planning_project_with_default_values :
  calls (snd (createPlanningProject Fixtures.gen_random_uuid (JsObject [])
                Fixtures.mockCtx Fixtures.world))
  = [planningProject_create
       {| new_name := "Untitled Planning Project";
          new_description := "";
          new_type := CUSTOM;
          new_status := DRAFT;
          new_organizationId := 1;
          new_createdById := Some 1 |}].
Proof. reflexivity. Qed.

(** ** Reading one project *)

Lemma find_none_iff {A} (f : A → bool) (l : list A) :
  List.find f l = None ↔ ∀ x, In x l → f x = false.
Proof.
  split; [apply find_none|].
  induction l as [|y l IH]; simpl; intros H; [done|].
  rewrite (H y) by auto. apply IH. auto.
Qed.

(** For a session that has an organization, [getPlanningProject] answers
    "Planning project not found" whenever no stored project has both the id
    and the organization of the session: when the id is unknown and when it
    is the id of a project of another organization alike, after the same
    single read. *)
Lemma getPlanningProject_hides_foreign_projects
    (is_uuid : string → bool) (raw : JsValue) (ctx : Ctx) (w : World) (org : Z)
    (input : IdInput) :
  authorize (session ctx) = Return tt →
  orgId (session ctx) = Some org →
  GetPlanningProjectSchema is_uuid raw = inr input →
  (∀ p, In p (planningProject (db w)) →
        PlanningProject.id p = inp_id input → PlanningProject.organizationId p ≠ org) →
  getPlanningProject is_uuid raw ctx w
  = (Throw (Error "Planning project not found"),
     log_call (planningProject_findFirst
                 {| where_id := Some (inp_id input); where_organizationId := Some org;
                    where_status := None |}) w).
Proof.
  intros Hauth Horg Hs Hnone.
  enter_handler getPlanningProject Hs Hauth.
  unfold getPlanningProject_handler, bind, db_findFirst. rewrite Horg.
  assert (List.find
            (matches {| where_id := Some (inp_id input); where_organizationId := Some org;
                        where_status := None |}) (planningProject (db w)) = None) as ->.
  { apply find_none_iff. intros p Hin. unfold matches; simpl.
    rewrite andb_true_r. apply andb_false_iff.
    destruct (decide (PlanningProject.id p = inp_id input)) as [Hid|Hid].
    - right. apply bool_decide_eq_false_2. by apply Hnone.
    - left. by apply bool_decide_eq_false_2. }
  reflexivity.
Qed.

(** A session without organization puts no condition on the organization:
    [getPlanningProject] then answers with the stored project of that id,
    whatever its organization. *)
Lemma getPlanningProject_without_org
    (is_uuid : string → bool) (raw : JsValue) (ctx : Ctx) (w : World)
    (input : IdInput) (p : PlanningProject.t) :
  authorize (session ctx) = Return tt →
  orgId (session ctx) = None →
  GetPlanningProjectSchema is_uuid raw = inr input →
  stored (inp_id input) w = Some p →
  getPlanningProject is_uuid raw ctx w
  = (Return (detail (db w) p),
     log_call (planningProject_findFirst (where_id_is (inp_id input))) w).
Proof.
  intros Hauth Horg Hs Hp. unfold stored in Hp.
  enter_handler getPlanningProject Hs Hauth.
  unfold getPlanningProject_handler, bind, db_findFirst. rewrite Horg.
  fold (where_id_is (inp_id input)). by rewrite find_where_id_is, Hp.
Qed.

(** [deletePlanningProject] tells an unknown id from the id of a project it
    may not delete. *)
Lemma deletePlanningProject_distinguishes
    (is_uuid : string → bool) (raw : JsValue) (ctx : Ctx) (w : World) (input : IdInput) :
  authorize (session ctx) = Return tt →
  DeletePlanningProjectSchema is_uuid raw = inr input →
  (stored (inp_id input) w = None →
   fst (deletePlanningProject is_uuid raw ctx w) = Throw (Error "Planning project not found"))
  ∧ (∀ p, stored (inp_id input) w = Some p →
          orgId (session ctx) ≠ Some (PlanningProject.organizationId p) →
          fst (deletePlanningProject is_uuid raw ctx w)
          = Throw (Error "Not authorized to delete this project")).
Proof.
  intros Hauth Hs. unfold stored.
  enter_handler deletePlanningProject Hs Hauth.
  unfold deletePlanningProject_handler, bind, db_findFirst.
  rewrite find_where_id_is. split.
  - by intros ->.
  - intros p -> Hne. simpl. unfold select_organizationId.
    by rewrite (strict_ne_true _ _ Hne).
Qed.

(** C5. The claim fails for a session without organization: with
    [orgId: undefined] the query for the id of a project of organization 2
    returns that project instead of throwing "Planning project not found". *)
Theorem getPlanningProject_leaks_to_session_without_org :
  getPlanningProject Fixtures.is_uuid (Fixtures.id_only Fixtures.food_plan_id)
    Fixtures.ctxWithoutOrg Fixtures.world
  = (Return {| detail_project := Fixtures.food_plan;
               detail_createdBy := None;
               detail_linkedMaps := [] |},
     log_call (planningProject_findFirst (where_id_is Fixtures.food_plan_id))
       Fixtures.world)
  ∧ PlanningProject.organizationId Fixtures.food_plan = 2
  ∧ orgId (session Fixtures.ctxWithoutOrg) = None
  ∧ getPlanningProjects (JsObject []) Fixtures.ctxWithoutOrg Fixtures.world
    = (Throw (Error "No organization found"), Fixtures.world).
Proof. repeat split. Qed.

(** ** Frame of an update *)

Section UpdateRows.

Variable i : string.
Variable g : PlanningProject.t → PlanningProject.t.
Hypothesis g_id : ∀ q, PlanningProject.id (g q) = PlanningProject.id q.

Let upd (q : PlanningProject.t) : PlanningProject.t := if has_id i q then g q else q.

Lemma has_id_upd j q : has_id j (upd q) = has_id j q.
Proof.
  unfold upd, has_id.
  destruct (bool_decide (PlanningProject.id q = i)); [by rewrite g_id | done].
Qed.

Lemma find_updated rows p :
  List.find (has_id i) rows = Some p →
  List.find (has_id i) (List.map upd rows) = Some (g p).
Proof.
  induction rows as [|q rows IH]; simpl; [done|].
  rewrite has_id_upd. unfold upd at 1.
  destruct (has_id i q) eqn:Hq; [by intros [= ->] | exact IH].
Qed.

Lemma find_other_row j rows :
  j ≠ i →
  List.find (has_id j) (List.map upd rows) = List.find (has_id j) rows.
Proof.
  intros Hne. induction rows as [|q rows IH]; simpl; [done|].
  rewrite has_id_upd, IH.
  destruct (has_id j q) eqn:Hj; [|done].
  unfold upd. destruct (has_id i q) eqn:Hi; [|done].
  apply bool_decide_eq_true in Hj, Hi. congruence.
Qed.

End UpdateRows.

(** C6. A call of [updatePlanningProject] that succeeds issues one write,
    [update] with all the fields of the input at once; in the stored
    project each of [name], [description], [type], [status], [config] and
    [conversationHistory] has the value of the input when the input has the
    field and its prior value otherwise, and the call returns that
    project.  The other projects are untouched. *)
Theorem updatePlanningProject_frame
    (is_uuid : string → bool) (raw : JsValue) (ctx : Ctx) (w w' : World)
    (out : PlanningProject.t) :
  updatePlanningProject is_uuid raw ctx w = (Return out, w') →
  ∃ input prior,
    UpdatePlanningProjectSchema is_uuid raw = inr input
    ∧ stored (upd_id input) w = Some prior
    ∧ stored (upd_id input) w' = Some out
    ∧ calls w' = (calls w ++ [planningProject_findFirst (where_id_is (upd_id input));
                              planningProject_update (upd_id input) (rest_data input)])%list
    ∧ PlanningProject.name out = or_else (upd_name input) (PlanningProject.name prior)
    ∧ PlanningProject.description out
      = or_else (upd_description input) (PlanningProject.description prior)
    ∧ PlanningProject.type out = or_else (upd_type input) (PlanningProject.type prior)
    ∧ PlanningProject.status out = or_else (upd_status input) (PlanningProject.status prior)
    ∧ PlanningProject.config out
      = match upd_config input with Some v => Some v | None => PlanningProject.config prior end
    ∧ PlanningProject.conversationHistory out
      = match upd_conversationHistory input with
        | Some v => Some v
        | None => PlanningProject.conversationHistory prior
        end
    ∧ (∀ j, j ≠ upd_id input → stored j w' = stored j w).
Proof.
  unfold updatePlanningProject, resolver_pipe, bind at 1, resolver_zod.
  destruct (UpdatePlanningProjectSchema is_uuid raw) as [issues|input] eqn:Hs;
    [discriminate|].
  unfold ret at 1, bind at 1, resolver_authorize.
  destruct (authorize (session ctx)) as [[]|e]; [|discriminate].
  unfold updatePlanningProject_handler, bind at 1, db_findFirst.
  rewrite find_where_id_is.
  destruct (List.find (has_id (upd_id input)) (planningProject (db w))) as [prior|] eqn:Hp;
    simpl; [|discriminate].
  destruct (strict_ne _ _); [discriminate|].
  unfold bind, db_update; simpl. rewrite Hp.
  intros [= <- <-].
  exists input, prior. unfold stored; simpl.
  split; [done|]. split; [done|].
  split; [by apply find_updated|].
  split; [by rewrite <- app_assoc|].
  repeat (split; [done|]).
  intros j Hj. by apply find_other_row.
Qed.

Lemma updatePlanningProject_frame_witness :
  ∃ input prior,
    UpdatePlanningProjectSchema Fixtures.is_uuid
      (JsObject [("id", JsString Fixtures.bike_plan_id); ("status", JsString "REVIEW")])
    = inr input
    ∧ stored (upd_id input) Fixtures.world = Some prior
    ∧ stored (upd_id input)
        (snd (updatePlanningProject Fixtures.is_uuid
                (JsObject [("id", JsString Fixtures.bike_plan_id);
                           ("status", JsString "REVIEW")])
                Fixtures.mockCtx Fixtures.world))
      = Some (apply_data
                {| data_name := None; data_description := None; data_type := None;
                   data_status := Some REVIEW; data_config := None;
                   data_conversationHistory := None |} 5000 Fixtures.bike_plan).
Proof.
  destruct (updatePlanningProject_frame Fixtures.is_uuid
              (JsObject [("id", JsString Fixtures.bike_plan_id); ("status", JsString "REVIEW")])
              Fixtures.mockCtx Fixtures.world
              (snd (updatePlanningProject Fixtures.is_uuid
                      (JsObject [("id", JsString Fixtures.bike_plan_id);
                                 ("status", JsString "REVIEW")])
                      Fixtures.mockCtx Fixtures.world))
              (apply_data
                 {| data_name := None; data_description := None; data_type := None;
                    data_status := Some REVIEW; data_config := None;
                    data_conversationHistory := None |} 5000 Fixtures.bike_plan)
              eq_refl)
    as (input & prior & Hs & Hprior & Hout & _).
  exists input, prior. by repeat split.
Defined.

(** ** Order and status filter of the list *)

#[global] Instance updatedAt_desc_transitive : Transitive updatedAt_desc.
Proof. intros p q r. unfold updatedAt_desc. lia. Qed.

#[global] Instance updatedAt_desc_total : Total updatedAt_desc.
Proof. intros p q. unfold updatedAt_desc. lia. Qed.

(** C7. The list [getPlanningProjects] returns is sorted by [updatedAt],
    latest first; with a [status] in the input every project of the list
    has that status, and without one every stored project of the
    organization is in the list, whatever its status. *)
Theorem getPlanningProjects_sorted_and_filtered
    (raw : JsValue) (ctx : Ctx) (w : World) (org : Z) (input : GetPlanningProjectsInput) :
  authorize (session ctx) = Return tt →
  orgId (session ctx) = Some org → org ≠ 0 →
  GetPlanningProjectsSchema raw = inr input →
  ∃ items w',
    getPlanningProjects raw ctx w = (Return items, w')
    ∧ StronglySorted
        (λ p q, PlanningProject.updatedAt q ≤ PlanningProject.updatedAt p)
        (item_project <$> items)
    ∧ (∀ s, inp_status input = Some s →
            Forall (λ p, PlanningProject.status p = s) (item_project <$> items))
    ∧ (inp_status input = None →
       ∀ p, p ∈ planningProject (db w) → PlanningProject.organizationId p = org →
            p ∈ item_project <$> items).
Proof.
  intros Hauth Horg Hnz Hs.
  enter_handler getPlanningProjects Hs Hauth.
  rewrite (getPlanningProjects_handler_run _ _ org) by by apply truthy_number_Some.
  eexists _, _. split; [reflexivity|].
  rewrite item_project_list_item.
  split; [|split].
  - apply (StronglySorted_merge_sort updatedAt_desc).
  - intros s Hst. apply Forall_forall. intros p Hp.
    rewrite merge_sort_Permutation in Hp.
    apply list_elem_of_In, filter_In in Hp. destruct Hp as [_ Hm].
    apply matches_org_status in Hm. destruct Hm as [_ Hm]. by apply Hm.
  - intros Hst p Hin Hp. rewrite merge_sort_Permutation.
    apply list_elem_of_In, filter_In. split; [by apply list_elem_of_In|].
    apply matches_org_status. split; [done|]. rewrite Hst. by intros s.
Qed.

Lemma getPlanningProjects_sorted_and_filtered_witness :
  ∃ items w',
    getPlanningProjects (JsObject [("status", JsString "DRAFT")]) Fixtures.mockCtx
      Fixtures.world = (Return items, w')
    ∧ StronglySorted
        (λ p q, PlanningProject.updatedAt q ≤ PlanningProject.updatedAt p)
        (item_project <$> items)
    ∧ (∀ s, Some DRAFT = Some s →
            Forall (λ p, PlanningProject.status p = s) (item_project <$> items))
    ∧ (Some DRAFT = None →
       ∀ p, p ∈ planningProject (db Fixtures.world) → PlanningProject.organizationId p = 1 →
            p ∈ item_project <$> items).
Proof.
  apply (getPlanningProjects_sorted_and_filtered
           (JsObject [("status", JsString "DRAFT")]) Fixtures.mockCtx Fixtures.world 1
           {| inp_status := Some DRAFT |});
    [reflexivity | reflexivity | discriminate | reflexivity].
Defined.

(** The list of the fixture, as the first test of
    [getPlanningProjects.test.ts] has it: the projects of organization 1,
    the one updated last first. *)
Example returns_all_planning_projects_for_organization :
  item_project <$>
    match fst (getPlanningProjects (JsObject []) Fixtures.mockCtx Fixtures.world) with
    | Return items => items
    | Throw _ => []
    end
  = [Fixtures.comp_plan; Fixtures.bike_plan].
Proof. reflexivity. Qed.

(** ** The delete button of the list *)

(** C8. [handleDelete] never rejects.  Once the user has confirmed, a
    mutation that fails, with whatever exception, is caught, reported to
    Sentry and shown as the toast "Failed to delete planning project"; a
    mutation that succeeds is followed by the invalidation of the query of
    the list and the toast "Planning project deleted". *)
Theorem handleDelete_reports_outcome
    (confirm : string → bool) (mutation : JsValue → Outcome DeleteResult)
    (invalidateQuery : Outcome unit) (id name : string) (trace : list UiEffect) :
  let message := "Are you sure you want to delete " +:+ dquote +:+ name +:+ dquote +:+ "?" in
  let input := JsObject [("id", JsString id)] in
  fst (handleDelete confirm mutation invalidateQuery id name trace) = Return tt
  ∧ (confirm message = true →
     (∀ e, mutation input = Throw e →
           handleDelete confirm mutation invalidateQuery id name trace
           = (Return tt,
              (trace ++ [window_confirm message;
                         call_deletePlanningProject input;
                         Sentry_captureException e;
                         toast_error "Failed to delete planning project"])%list))
     ∧ (∀ r, mutation input = Return r → invalidateQuery = Return tt →
             handleDelete confirm mutation invalidateQuery id name trace
             = (Return tt,
                (trace ++ [window_confirm message;
                           call_deletePlanningProject input;
                           invalidateQuery_getPlanningProjects;
                           toast_success "Planning project deleted"])%list))).
Proof.
  intros message input. split.
  - unfold handleDelete, bind, try_catch, effect. fold message input.
    destruct (confirm message); simpl; [|done].
    destruct (mutation input) as [r|e]; simpl; [|done].
    by destruct invalidateQuery as [[]|e].
  - intros Hconfirm. split.
    + intros e He. unfold handleDelete, bind, try_catch, effect.
      fold message. rewrite Hconfirm. simpl. fold input. rewrite He.
      by rewrite <- !app_assoc.
    + intros r Hr Hinv. unfold handleDelete, bind, try_catch, effect.
      fold message. rewrite Hconfirm. simpl. fold input. rewrite Hr, Hinv.
      by rewrite <- !app_assoc.
Qed.

(** The delete button on a project of another organization: the resolver
    refuses, the component shows the error toast. *)
Lemma handleDelete_reports_outcome_witness :
  handleDelete (λ _, true)
    (λ raw, fst (deletePlanningProject Fixtures.is_uuid raw Fixtures.mockCtx Fixtures.world))
    (Return tt) Fixtures.food_plan_id "Food Desert Analysis" []
  = (Return tt,
     [window_confirm
        ("Are you sure you want to delete " +:+ dquote +:+ "Food Desert Analysis"
         +:+ dquote +:+ "?");
      call_deletePlanningProject (Fixtures.id_only Fixtures.food_plan_id);
      Sentry_captureException (Error "Not authorized to delete this project");
      toast_error "Failed to delete planning project"]).
Proof.
  destruct (handleDelete_reports_outcome (λ _, true)
              (λ raw, fst (deletePlanningProject Fixtures.is_uuid raw Fixtures.mockCtx
                             Fixtures.world))
              (Return tt) Fixtures.food_plan_id "Food Desert Analysis" [])
    as [_ H].
  destruct (H eq_refl) as [Hfail _].
  apply (Hfail (Error "Not authorized to delete this project")). reflexivity.
Defined.

(** ** Idempotence of the push endpoint *)

Section PushIdempotence.

Context {DocumentState Args : Type}.
Variable apply : DocumentState → string → Args → string + DocumentState.
Variable broken_precondition : DocumentState → string → Args → option string.

Lemma push_mutation_recorded client (m : Push.Mutation Args)
    (srv : Push.Server DocumentState) :
  Push.recorded client (Push.id m) srv →
  Push.push_mutation DocumentState Args apply broken_precondition client m srv
  = ({| Push.info_id := Push.id m; Push.result := Push.alreadyApplied |}, srv).
Proof. intros Hrec. unfold Push.push_mutation. by rewrite bool_decide_eq_true_2. Qed.

(** A mutation that was applied, with or without conflict, is recorded. *)
Lemma applied_mutation_is_recorded client (m : Push.Mutation Args)
    (srv : Push.Server DocumentState) info srv' :
  Push.push_mutation DocumentState Args apply broken_precondition client m srv
  = (info, srv') →
  Push.result info = Push.ok ∨ (∃ detail, Push.result info = Push.conflict detail) →
  Push.recorded client (Push.id m) srv'.
Proof.
  unfold Push.push_mutation. case_bool_decide as Hrec.
  - intros [= <- <-]. simpl. by intros [?|[? ?]].
  - destruct (apply _ _ _) as [detail|state'].
    + intros [= <- <-]. simpl. by intros [?|[? ?]].
    + intros [= <- <-] _. unfold Push.recorded, Push.record_applied; simpl.
      rewrite lookup_insert_eq. simpl. set_solver.
Qed.

(** What is recorded stays recorded. *)
Lemma recorded_push_mutation client i client' (m : Push.Mutation Args)
    (srv : Push.Server DocumentState) :
  Push.recorded client i srv →
  Push.recorded client i
    (snd (Push.push_mutation DocumentState Args apply broken_precondition client' m srv)).
Proof.
  intros Hrec. unfold Push.push_mutation.
  case_bool_decide; simpl; [done|].
  destruct (apply _ _ _) as [detail|state']; simpl; [done|].
  unfold Push.recorded, Push.record_applied in *; simpl.
  destruct (decide (client' = client)) as [->|Hne].
  - rewrite lookup_insert_eq. simpl. set_solver.
  - by rewrite lookup_insert_ne.
Qed.

Lemma recorded_push_mutations client i client' (ms : list (Push.Mutation Args))
    (srv : Push.Server DocumentState) :
  Push.recorded client i srv →
  Push.recorded client i
    (snd (Push.push_mutations DocumentState Args apply broken_precondition client' ms srv)).
Proof.
  revert srv. induction ms as [|m ms IH]; simpl; intros srv Hrec; [done|].
  pose proof (recorded_push_mutation client i client' m srv Hrec) as H1.
  destruct (Push.push_mutation _ _ _ _ client' m srv) as [info srv1]; simpl in H1.
  specialize (IH srv1 H1).
  by destruct (Push.push_mutations _ _ _ _ client' ms srv1) as [infos srv2].
Qed.

Lemma recorded_pushes client i (reqs : list (Push.PushRequest Args))
    (srv : Push.Server DocumentState) :
  Push.recorded client i srv →
  Push.recorded client i (Push.pushes DocumentState Args apply broken_precondition reqs srv).
Proof.
  revert srv. induction reqs as [|req reqs IH]; simpl; intros srv Hrec; [done|].
  apply IH. unfold Push.push.
  pose proof (recorded_push_mutations client i (Push.req_clientId req)
                (Push.mutations req) srv Hrec) as H1.
  by destruct (Push.push_mutations _ _ _ _ _ (Push.mutations req) srv) as [infos srv1].
Qed.

(** C9. Once the id of a mutation is recorded as applied for a client,
    whatever requests the endpoint serves in between, sending the mutation
    again, any number of times, is answered [alreadyApplied] each time and
    leaves the server as it is: document, version and records. *)
Theorem push_resubmission_already_applied
    (srv : Push.Server DocumentState) (client : string) (m : Push.Mutation Args)
    (between : list (Push.PushRequest Args)) (n last : nat) :
  Push.recorded client (Push.id m) srv →
  let srv' := Push.pushes DocumentState Args apply broken_precondition between srv in
  Push.push DocumentState Args apply broken_precondition
    {| Push.req_clientId := client;
       Push.mutations := replicate n m;
       Push.lastMutationId := last |} srv'
  = ({| Push.mutationInfos :=
          replicate n {| Push.info_id := Push.id m; Push.result := Push.alreadyApplied |};
        Push.newVersion := Push.version srv' |},
     srv').
Proof.
  intros Hrec srv'.
  assert (Hrec' : Push.recorded client (Push.id m) srv') by by apply recorded_pushes.
  unfold Push.push; simpl.
  assert (Push.push_mutations DocumentState Args apply broken_precondition client
            (replicate n m) srv'
          = (replicate n {| Push.info_id := Push.id m;
                            Push.result := Push.alreadyApplied |}, srv')) as ->; [|done].
  induction n as [|n IH]; simpl; [done|].
  by rewrite (push_mutation_recorded _ _ _ Hrec'), IH.
Qed.

End PushIdempotence.

Example first_push_applies :
  Push.mutationInfos
    (fst (Push.push Z Z PushFixtures.apply PushFixtures.broken_precondition
            (PushFixtures.request [PushFixtures.m1]) PushFixtures.fresh_server))
  = [{| Push.info_id := 1; Push.result := Push.ok |}]
  ∧ Push.document PushFixtures.after_first_push = 5
  ∧ Push.version PushFixtures.after_first_push = 1%nat.
Proof. by vm_compute. Qed.

Lemma push_resubmission_already_applied_witness :
  let srv' := Push.pushes Z Z PushFixtures.apply PushFixtures.broken_precondition
                [PushFixtures.request_b [PushFixtures.m2]] PushFixtures.after_first_push in
  Push.document srv' = 7
  ∧ Push.push Z Z PushFixtures.apply PushFixtures.broken_precondition
      (PushFixtures.request (replicate 3 PushFixtures.m1)) srv'
    = ({| Push.mutationInfos :=
            replicate 3 {| Push.info_id := 1; Push.result := Push.alreadyApplied |};
          Push.newVersion := Push.version srv' |},
       srv').
Proof.
  split; [by vm_compute|].
  apply (push_resubmission_already_applied PushFixtures.apply
           PushFixtures.broken_precondition PushFixtures.after_first_push
           "client-a" PushFixtures.m1 [PushFixtures.request_b [PushFixtures.m2]] 3 0).
  vm_compute. reflexivity.
Defined.

(** * Further properties of the resolvers *)

(** ** The pipeline and the handlers, case by case *)

Lemma resolver_pipe_cases {I O} (schema : JsValue → ZodResult I) (handler : I → Ctx → M O)
    raw ctx w :
  resolver_pipe schema handler raw ctx w
  = match schema raw with
    | inl issues => (Throw (ZodError issues), w)
    | inr input =>
        match authorize (session ctx) with
        | Return _ => handler input ctx w
        | Throw e => (Throw e, w)
        end
    end.
Proof.
  unfold resolver_pipe, bind, resolver_zod, resolver_authorize.
  destruct (schema raw) as [issues|input]; [done|]. simpl.
  by destruct (authorize (session ctx)) as [[]|e].
Qed.

Lemma writes_since_app w w' cs :
  calls w' = (calls w ++ cs)%list → writes_since w w' = List.filter is_write cs.
Proof. intros H. unfold writes_since. by rewrite H, drop_app_length. Qed.

Lemma writes_since_refl w : writes_since w w = [].
Proof. apply (writes_since_app w w []). by rewrite app_nil_r. Qed.

Lemma db_update_found i data w p :
  stored i w = Some p →
  db_update i data w
  = (Return (apply_data data (now w) p),
     {| db := with_planningProject
                (List.map (λ q, if has_id i q then apply_data data (now w) q else q)
                   (planningProject (db w))) (db w);
        calls := (calls w ++ [planningProject_update i data])%list;
        now := now w; uuid_counter := uuid_counter w |}).
Proof. intros Hp. unfold db_update. unfold stored in Hp. by rewrite Hp. Qed.

Lemma db_delete_found i w p :
  stored i w = Some p →
  db_delete i w
  = (Return p,
     {| db :=
          {| planningProject :=
               List.filter (λ q, negb (has_id i q)) (planningProject (db w));
             planningProjectMap :=
               List.filter
                 (λ m, negb (bool_decide (PlanningProjectMap.planningProjectId m = i)))
                 (planningProjectMap (db w));
             user := user (db w);
             wrappedFeatureCollection := wrappedFeatureCollection (db w) |};
        calls := (calls w ++ [planningProject_delete i])%list;
        now := now w; uuid_counter := uuid_counter w |}).
Proof. intros Hp. unfold db_delete. unfold stored in Hp. by rewrite Hp. Qed.

Lemma updatePlanningProject_handler_cases input ctx w :
  updatePlanningProject_handler input ctx w
  = let w1 := log_call (planningProject_findFirst (where_id_is (upd_id input))) w in
    match stored (upd_id input) w with
    | None => (Throw (Error "Planning project not found"), w1)
    | Some p =>
        if strict_ne (PlanningProject.organizationId p) (orgId (session ctx))
        then (Throw (Error "Not authorized to update this project"), w1)
        else db_update (upd_id input) (rest_data input) w1
    end.
Proof.
  unfold updatePlanningProject_handler, bind at 1, db_findFirst, stored.
  rewrite find_where_id_is.
  destruct (List.find _ _) as [p|] eqn:Hp; simpl; [|done].
  unfold select_organizationId. destruct (strict_ne _ _); [done|].
  unfold bind, ret.
  by destruct (db_update _ _ _) as [[out|e] w2].
Qed.

Lemma deletePlanningProject_handler_cases input ctx w :
  deletePlanningProject_handler input ctx w
  = let w1 := log_call (planningProject_findFirst (where_id_is (inp_id input))) w in
    match stored (inp_id input) w with
    | None => (Throw (Error "Planning project not found"), w1)
    | Some p =>
        if strict_ne (PlanningProject.organizationId p) (orgId (session ctx))
        then (Throw (Error "Not authorized to delete this project"), w1)
        else
          match db_delete (inp_id input) w1 with
          | (Return _, w2) => (Return {| success := true |}, w2)
          | (Throw e, w2) => (Throw e, w2)
          end
    end.
Proof.
  unfold deletePlanningProject_handler, bind at 1, db_findFirst, stored.
  rewrite find_where_id_is.
  destruct (List.find _ _) as [p|] eqn:Hp; simpl; [|done].
  unfold select_organizationId. by destruct (strict_ne _ _).
Qed.

Lemma createPlanningProject_handler_cases gen_random_uuid input ctx w :
  createPlanningProject_handler gen_random_uuid input ctx w
  = match truthy_number (orgId (session ctx)) with
    | None => (Throw (Error "No organization found"), w)
    | Some org =>
        db_create gen_random_uuid
          {| new_name := or_string (crt_name input) "Untitled Planning Project";
             new_description := or_string (crt_description input) "";
             new_type := or_enum (crt_type input) CUSTOM;
             new_status := DRAFT;
             new_organizationId := org;
             new_createdById := userId (session ctx) |} w
    end.
Proof.
  unfold createPlanningProject_handler.
  destruct (truthy_number _) as [org|]; [|done].
  unfold bind, ret. by destruct (db_create _ _ _) as [[out|e] w2].
Qed.

Lemma getPlanningProject_handler_cases input ctx w :
  getPlanningProject_handler input ctx w
  = let whr := {| where_id := Some (inp_id input);
                  where_organizationId := orgId (session ctx);
                  where_status := None |} in
    (match List.find (matches whr) (planningProject (db w)) with
     | None => Throw (Error "Planning project not found")
     | Some p => Return (detail (db w) p)
     end,
     log_call (planningProject_findFirst whr) w).
Proof.
  unfold getPlanningProject_handler, bind, db_findFirst.
  by destruct (List.find _ _).
Qed.

Lemma getPlanningProjects_handler_cases input ctx w :
  getPlanningProjects_handler input ctx w
  = match truthy_number (orgId (session ctx)) with
    | None => (Throw (Error "No organization found"), w)
    | Some org =>
        let whr := {| where_id := None; where_organizationId := Some org;
                      where_status := inp_status input |} in
        (Return (list_item (db w) <$>
                   merge_sort updatedAt_desc
                     (List.filter (matches whr) (planningProject (db w)))),
         log_call (planningProject_findMany whr) w)
    end.
Proof. unfold getPlanningProjects_handler. by destruct (truthy_number _). Qed.

(** ** Sessions that [$authorize] turns away *)

(** X1. When [session.$authorize()] throws, every resolver throws: the
    [ZodError] when the input is invalid, since the schema is checked
    first, and otherwise the exception of [$authorize]; the world is the
    one before the call, no Prisma call is made. *)
Theorem rejected_session_reaches_no_database
    (is_uuid : string → bool) (gen_random_uuid : nat → string)
    (raw : JsValue) (ctx : Ctx) (w : World) (e : Exception) :
  authorize (session ctx) = Throw e →
  updatePlanningProject is_uuid raw ctx w
  = (Throw match UpdatePlanningProjectSchema is_uuid raw with
           | inl issues => ZodError issues
           | inr _ => e
           end, w)
  ∧ deletePlanningProject is_uuid raw ctx w
    = (Throw match DeletePlanningProjectSchema is_uuid raw with
             | inl issues => ZodError issues
             | inr _ => e
             end, w)
  ∧ createPlanningProject gen_random_uuid raw ctx w
    = (Throw match CreatePlanningProjectSchema raw with
             | inl issues => ZodError issues
             | inr _ => e
             end, w)
  ∧ getPlanningProject is_uuid raw ctx w
    = (Throw match GetPlanningProjectSchema is_uuid raw with
             | inl issues => ZodError issues
             | inr _ => e
             end, w)
  ∧ getPlanningProjects raw ctx w
    = (Throw match GetPlanningProjectsSchema raw with
             | inl issues => ZodError issues
             | inr _ => e
             end, w).
Proof.
  intros Hauth.
  unfold updatePlanningProject, deletePlanningProject, createPlanningProject,
    getPlanningProject, getPlanningProjects.
  rewrite !resolver_pipe_cases, Hauth.
  repeat split.
  - by destruct (UpdatePlanningProjectSchema is_uuid raw).
  - by destruct (DeletePlanningProjectSchema is_uuid raw).
  - by destruct (CreatePlanningProjectSchema raw).
  - by destruct (GetPlanningProjectSchema is_uuid raw).
  - by destruct (GetPlanningProjectsSchema raw).
Qed.

Lemma rejected_session_reaches_no_database_witness :
  let anonymous :=
    {| session := {| userId := None; orgId := None;
                     authorize := Throw AuthenticationError |} |} in
  deletePlanningProject Fixtures.is_uuid (Fixtures.id_only Fixtures.bike_plan_id)
    anonymous Fixtures.world
  = (Throw AuthenticationError, Fixtures.world)
  ∧ getPlanningProjects (JsObject [("status", JsString "OPEN")]) anonymous Fixtures.world
    = (Throw (ZodError [mkIssue invalid_enum_value ["status"]]), Fixtures.world).
Proof.
  intros anonymous.
  destruct (rejected_session_reaches_no_database Fixtures.is_uuid Fixtures.gen_random_uuid
              (Fixtures.id_only Fixtures.bike_plan_id) anonymous Fixtures.world
              AuthenticationError eq_refl) as (_ & Hdelete & _).
  destruct (rejected_session_reaches_no_database Fixtures.is_uuid Fixtures.gen_random_uuid
              (JsObject [("status", JsString "OPEN")]) anonymous Fixtures.world
              AuthenticationError eq_refl) as (_ & _ & _ & _ & Hlist).
  split; [exact Hdelete | exact Hlist].
Defined.

(** ** Reads, writes and failures *)

(** X2. The two queries never write: whatever the input and the session,
    after [getPlanningProject] and after [getPlanningProjects] the database
    is the one before the call and no write is among the Prisma calls
    made. *)
Theorem queries_are_read_only
    (is_uuid : string → bool) (raw : JsValue) (ctx : Ctx) (w : World) :
  (db (snd (getPlanningProject is_uuid raw ctx w)) = db w
   ∧ writes_since w (snd (getPlanningProject is_uuid raw ctx w)) = [])
  ∧ (db (snd (getPlanningProjects raw ctx w)) = db w
     ∧ writes_since w (snd (getPlanningProjects raw ctx w)) = []).
Proof.
  unfold getPlanningProject, getPlanningProjects. rewrite !resolver_pipe_cases. split.
  - destruct (GetPlanningProjectSchema is_uuid raw) as [issues|input]; simpl;
      [by rewrite writes_since_refl|].
    destruct (authorize (session ctx)); simpl; [|by rewrite writes_since_refl].
    rewrite getPlanningProject_handler_cases; simpl.
    split; [done|]. by apply writes_since_read.
  - destruct (GetPlanningProjectsSchema raw) as [issues|input]; simpl;
      [by rewrite writes_since_refl|].
    destruct (authorize (session ctx)); simpl; [|by rewrite writes_since_refl].
    rewrite getPlanningProjects_handler_cases.
    destruct (truthy_number _); simpl; [|by rewrite writes_since_refl].
    split; [done|]. by apply writes_since_read.
Qed.

Lemma quiet_refl w : quiet w w.
Proof. split; [done|apply writes_since_refl]. Qed.

Lemma quiet_read w c : is_write c = false → quiet w (log_call c w).
Proof. intros Hc. split; [done|by apply writes_since_read]. Qed.

Lemma updatePlanningProject_outcomes is_uuid raw ctx w :
  (∃ e, fst (updatePlanningProject is_uuid raw ctx w) = Throw e
        ∧ quiet w (snd (updatePlanningProject is_uuid raw ctx w)))
  ∨ (∃ out i data,
       fst (updatePlanningProject is_uuid raw ctx w) = Return out
       ∧ writes_since w (snd (updatePlanningProject is_uuid raw ctx w))
         = [planningProject_update i data]).
Proof.
  unfold updatePlanningProject. rewrite resolver_pipe_cases.
  destruct (UpdatePlanningProjectSchema is_uuid raw) as [issues|input];
    [left; eexists; split; [done|apply quiet_refl]|].
  destruct (authorize (session ctx)); [|left; eexists; split; [done|apply quiet_refl]].
  rewrite updatePlanningProject_handler_cases. simpl.
  destruct (stored (upd_id input) w) as [p|] eqn:Hp;
    [|left; eexists; split; [done|by apply quiet_read]].
  destruct (strict_ne _ _); [left; eexists; split; [done|by apply quiet_read]|].
  right. rewrite (db_update_found _ _ _ p) by done. simpl.
  eexists _, _, _. split; [done|].
  erewrite writes_since_app; [|simpl; by rewrite <- app_assoc]. done.
Qed.

Lemma deletePlanningProject_outcomes is_uuid raw ctx w :
  (∃ e, fst (deletePlanningProject is_uuid raw ctx w) = Throw e
        ∧ quiet w (snd (deletePlanningProject is_uuid raw ctx w)))
  ∨ (∃ i,
       fst (deletePlanningProject is_uuid raw ctx w) = Return {| success := true |}
       ∧ writes_since w (snd (deletePlanningProject is_uuid raw ctx w))
         = [planningProject_delete i]).
Proof.
  unfold deletePlanningProject. rewrite resolver_pipe_cases.
  destruct (DeletePlanningProjectSchema is_uuid raw) as [issues|input];
    [left; eexists; split; [done|apply quiet_refl]|].
  destruct (authorize (session ctx)); [|left; eexists; split; [done|apply quiet_refl]].
  rewrite deletePlanningProject_handler_cases. simpl.
  destruct (stored (inp_id input) w) as [p|] eqn:Hp;
    [|left; eexists; split; [done|by apply quiet_read]].
  destruct (strict_ne _ _); [left; eexists; split; [done|by apply quiet_read]|].
  right. rewrite (db_delete_found _ _ p) by done. simpl.
  eexists. split; [done|].
  erewrite writes_since_app; [|simpl; by rewrite <- app_assoc]. done.
Qed.

Lemma createPlanningProject_outcomes gen_random_uuid raw ctx w :
  (∃ e, fst (createPlanningProject gen_random_uuid raw ctx w) = Throw e
        ∧ db (snd (createPlanningProject gen_random_uuid raw ctx w)) = db w
        ∧ length (writes_since w (snd (createPlanningProject gen_random_uuid raw ctx w)))
          ≤ 1)%nat
  ∨ (∃ out data,
       fst (createPlanningProject gen_random_uuid raw ctx w) = Return out
       ∧ writes_since w (snd (createPlanningProject gen_random_uuid raw ctx w))
         = [planningProject_create data]).
Proof.
  unfold createPlanningProject. rewrite resolver_pipe_cases.
  destruct (CreatePlanningProjectSchema raw) as [issues|input];
    [left; eexists; split; [done|]; simpl; rewrite writes_since_refl; split; [done|simpl; lia]|].
  destruct (authorize (session ctx));
    [|left; eexists; split; [done|]; simpl; rewrite writes_since_refl; split; [done|simpl; lia]].
  rewrite createPlanningProject_handler_cases.
  destruct (truthy_number _) as [org|];
    [|left; eexists; split; [done|]; simpl; rewrite writes_since_refl; split; [done|simpl; lia]].
  unfold db_create.
  destruct (List.find _ _) as [q|]; simpl.
  - left. eexists. split; [done|]. split; [done|].
    erewrite writes_since_app; [|simpl; done]. simpl. lia.
  - right. eexists _, _. split; [done|].
    erewrite writes_since_app; [|simpl; done]. done.
Qed.

(** X3. A mutation that throws has changed nothing: after a call of
    [updatePlanningProject], [deletePlanningProject] or
    [createPlanningProject] that ends in an exception, whichever it is, the
    database is the one before the call. *)
Theorem failed_mutation_leaves_database_unchanged
    (is_uuid : string → bool) (gen_random_uuid : nat → string)
    (raw : JsValue) (ctx : Ctx) (w : World) :
  (∀ e, fst (updatePlanningProject is_uuid raw ctx w) = Throw e →
        db (snd (updatePlanningProject is_uuid raw ctx w)) = db w)
  ∧ (∀ e, fst (deletePlanningProject is_uuid raw ctx w) = Throw e →
          db (snd (deletePlanningProject is_uuid raw ctx w)) = db w)
  ∧ (∀ e, fst (createPlanningProject gen_random_uuid raw ctx w) = Throw e →
          db (snd (createPlanningProject gen_random_uuid raw ctx w)) = db w).
Proof.
  split; [|split]; intros e He.
  - destruct (updatePlanningProject_outcomes is_uuid raw ctx w)
      as [(e' & _ & Hdb & _)|(out & i & data & Hret & _)]; [done|congruence].
  - destruct (deletePlanningProject_outcomes is_uuid raw ctx w)
      as [(e' & _ & Hdb & _)|(i & Hret & _)]; [done|congruence].
  - destruct (createPlanningProject_outcomes gen_random_uuid raw ctx w)
      as [(e' & _ & Hdb & _)|(out & data & Hret & _)]; [done|congruence].
Qed.

Lemma failed_mutation_leaves_database_unchanged_witness :
  db (snd (createPlanningProject (λ _, Fixtures.bike_plan_id) (JsObject [])
             Fixtures.mockCtx Fixtures.world))
  = db Fixtures.world.
Proof.
  destruct (failed_mutation_leaves_database_unchanged Fixtures.is_uuid
              (λ _, Fixtures.bike_plan_id) (JsObject []) Fixtures.mockCtx Fixtures.world)
    as (_ & _ & Hcreate).
  apply (Hcreate (PrismaClientKnownRequestError P2002)). reflexivity.
Defined.

(** X4. A mutation writes at most once per call: between the world before
    and the world after a call of [updatePlanningProject],
    [deletePlanningProject] or [createPlanningProject] there is at most one
    write among the Prisma calls, whatever the input and the session. *)
Theorem mutation_writes_at_most_once
    (is_uuid : string → bool) (gen_random_uuid : nat → string)
    (raw : JsValue) (ctx : Ctx) (w : World) :
  (length (writes_since w (snd (updatePlanningProject is_uuid raw ctx w))) ≤ 1)%nat
  ∧ (length (writes_since w (snd (deletePlanningProject is_uuid raw ctx w))) ≤ 1)%nat
  ∧ (length (writes_since w (snd (createPlanningProject gen_random_uuid raw ctx w))) ≤ 1)%nat.
Proof.
  split; [|split].
  - destruct (updatePlanningProject_outcomes is_uuid raw ctx w)
      as [(e & _ & _ & ->)|(out & i & data & _ & ->)]; simpl; lia.
  - destruct (deletePlanningProject_outcomes is_uuid raw ctx w)
      as [(e & _ & _ & ->)|(i & _ & ->)]; simpl; lia.
  - destruct (createPlanningProject_outcomes gen_random_uuid raw ctx w)
      as [(e & _ & _ & Hlen)|(out & data & _ & ->)]; simpl; lia.
Qed.

(** ** Unknown ids *)



(** ** Deleting *)

Lemma find_filter_out i rows :
  List.find (has_id i) (List.filter (λ q, negb (has_id i q)) rows) = None.
Proof.
  apply find_none_iff. intros p Hin. apply filter_In in Hin as [_ Hp].
  by apply negb_true_iff in Hp.
Qed.

Lemma find_filter_other i j rows :
  j ≠ i →
  List.find (has_id j) (List.filter (λ q, negb (has_id i q)) rows)
  = List.find (has_id j) rows.
Proof.
  intros Hne. induction rows as [|q rows IH]; simpl; [done|].
  destruct (has_id i q) eqn:Hi; simpl.
  - rewrite IH. destruct (has_id j q) eqn:Hj; [|done].
    apply bool_decide_eq_true in Hi, Hj. congruence.
  - by rewrite IH.
Qed.

(** X6. [deletePlanningProject] on a project of the organization of the
    session returns [{ success: true }] after one [findFirst] and one
    [delete]; the project is gone, the links of that project to maps are
    gone with it and no other link is, every other project is stored as
    before, and users and maps are untouched. *)
Theorem deletePlanningProject_removes_project_and_links
    (is_uuid : string → bool) (raw : JsValue) (ctx : Ctx) (w : World)
    (input : IdInput) (p : PlanningProject.t) :
  authorize (session ctx) = Return tt →
  DeletePlanningProjectSchema is_uuid raw = inr input →
  stored (inp_id input) w = Some p →
  orgId (session ctx) = Some (PlanningProject.organizationId p) →
  ∃ w',
    deletePlanningProject is_uuid raw ctx w = (Return {| success := true |}, w')
    ∧ calls w' = (calls w ++ [planningProject_findFirst (where_id_is (inp_id input));
                              planningProject_delete (inp_id input)])%list
    ∧ stored (inp_id input) w' = None
    ∧ (∀ j, j ≠ inp_id input → stored j w' = stored j w)
    ∧ (∀ m, In m (planningProjectMap (db w'))
            ↔ In m (planningProjectMap (db w))
              ∧ PlanningProjectMap.planningProjectId m ≠ inp_id input)
    ∧ user (db w') = user (db w)
    ∧ wrappedFeatureCollection (db w') = wrappedFeatureCollection (db w).
Proof.
  intros Hauth Hs Hp Horg.
  enter_handler deletePlanningProject Hs Hauth.
  rewrite deletePlanningProject_handler_cases, Hp. simpl.
  rewrite Horg. simpl. rewrite bool_decide_eq_true_2 by done. simpl.
  rewrite (db_delete_found _ _ p) by done.
  eexists. split; [reflexivity|]. simpl.
  split; [by rewrite <- app_assoc|].
  split; [apply find_filter_out|].
  split; [intros j Hj; by apply find_filter_other|].
  split; [|done].
  intros m. rewrite filter_In, negb_true_iff, bool_decide_eq_false. tauto.
Qed.

Lemma deletePlanningProject_removes_project_and_links_witness :
  ∃ w',
    deletePlanningProject Fixtures.is_uuid (Fixtures.id_only Fixtures.bike_plan_id)
      Fixtures.mockCtx LinkedFixtures.world = (Return {| success := true |}, w')
    ∧ planningProject (db w') = [Fixtures.comp_plan; Fixtures.food_plan]
    ∧ planningProjectMap (db w') = [LinkedFixtures.food_link].
Proof.
  destruct (deletePlanningProject_removes_project_and_links Fixtures.is_uuid
              (Fixtures.id_only Fixtures.bike_plan_id) Fixtures.mockCtx LinkedFixtures.world
              {| inp_id := Fixtures.bike_plan_id |} Fixtures.bike_plan
              eq_refl eq_refl eq_refl eq_refl) as (w' & Hrun & _).
  exists w'. split; [exact Hrun|].
  assert (w' = snd (deletePlanningProject Fixtures.is_uuid
                      (Fixtures.id_only Fixtures.bike_plan_id) Fixtures.mockCtx
                      LinkedFixtures.world)) as -> by by rewrite Hrun.
  by split.
Defined.

(** ** What a mutation does to the database *)

Lemma truthy_number_inv o n : truthy_number o = Some n → o = Some n ∧ n ≠ 0.
Proof.
  destruct o as [m|]; simpl; [|done].
  case_bool_decide; [done|]. by intros [= <-].
Qed.

Lemma updatePlanningProject_database is_uuid raw ctx w :
  db (snd (updatePlanningProject is_uuid raw ctx w)) = db w
  ∨ ∃ input p,
      UpdatePlanningProjectSchema is_uuid raw = inr input
      ∧ stored (upd_id input) w = Some p
      ∧ orgId (session ctx) = Some (PlanningProject.organizationId p)
      ∧ db (snd (updatePlanningProject is_uuid raw ctx w))
        = with_planningProject
            (List.map (λ q, if has_id (upd_id input) q
                            then apply_data (rest_data input) (now w) q else q)
               (planningProject (db w))) (db w).
Proof.
  unfold updatePlanningProject. rewrite resolver_pipe_cases.
  destruct (UpdatePlanningProjectSchema is_uuid raw) as [issues|input]; [by left|].
  destruct (authorize (session ctx)); [|by left].
  rewrite updatePlanningProject_handler_cases. simpl.
  destruct (stored (upd_id input) w) as [p|] eqn:Hp; [|by left].
  destruct (strict_ne _ _) eqn:Hne; [by left|].
  right. exists input, p. rewrite (db_update_found _ _ _ p) by done.
  split; [done|]. split; [done|]. split; [by apply strict_ne_false|done].
Qed.

Lemma deletePlanningProject_database is_uuid raw ctx w :
  db (snd (deletePlanningProject is_uuid raw ctx w)) = db w
  ∨ ∃ input p,
      DeletePlanningProjectSchema is_uuid raw = inr input
      ∧ stored (inp_id input) w = Some p
      ∧ orgId (session ctx) = Some (PlanningProject.organizationId p)
      ∧ db (snd (deletePlanningProject is_uuid raw ctx w))
        = {| planningProject :=
               List.filter (λ q, negb (has_id (inp_id input) q)) (planningProject (db w));
             planningProjectMap :=
               List.filter
                 (λ m, negb (bool_decide
                               (PlanningProjectMap.planningProjectId m = inp_id input)))
                 (planningProjectMap (db w));
             user := user (db w);
             wrappedFeatureCollection := wrappedFeatureCollection (db w) |}.
Proof.
  unfold deletePlanningProject. rewrite resolver_pipe_cases.
  destruct (DeletePlanningProjectSchema is_uuid raw) as [issues|input]; [by left|].
  destruct (authorize (session ctx)); [|by left].
  rewrite deletePlanningProject_handler_cases. simpl.
  destruct (stored (inp_id input) w) as [p|] eqn:Hp; [|by left].
  destruct (strict_ne _ _) eqn:Hne; [by left|].
  right. exists input, p. rewrite (db_delete_found _ _ p) by done.
  split; [done|]. split; [done|]. split; [by apply strict_ne_false|done].
Qed.

Lemma createPlanningProject_database gen_random_uuid raw ctx w :
  db (snd (createPlanningProject gen_random_uuid raw ctx w)) = db w
  ∨ ∃ p,
      fst (createPlanningProject gen_random_uuid raw ctx w) = Return p
      ∧ stored (PlanningProject.id p) w = None
      ∧ orgId (session ctx) = Some (PlanningProject.organizationId p)
      ∧ PlanningProject.createdById p = userId (session ctx)
      ∧ db (snd (createPlanningProject gen_random_uuid raw ctx w))
        = with_planningProject (planningProject (db w) ++ [p])%list (db w).
Proof.
  unfold createPlanningProject. rewrite resolver_pipe_cases.
  destruct (CreatePlanningProjectSchema raw) as [issues|input]; [by left|].
  destruct (authorize (session ctx)); [|by left].
  rewrite createPlanningProject_handler_cases.
  destruct (truthy_number _) as [org|] eqn:Horg; [|by left].
  apply truthy_number_inv in Horg as [Horg _].
  unfold db_create. fold (stored (gen_random_uuid (uuid_counter w)) w).
  destruct (stored _ w) eqn:Hfresh; [by left|].
  right. eexists. simpl. split; [reflexivity|]. simpl. by repeat split.
Qed.

(** ** Invariants *)

Lemma NoDup_fmap_In_inj {A B} (f : A → B) (l : list A) x y :
  NoDup (f <$> l) → In x l → In y l → f x = f y → x = y.
Proof.
  induction l as [|z l IH]; csimpl; [done|].
  rewrite NoDup_cons. intros [Hz Hl] [->|Hx] [->|Hy] Hf; auto.
  - exfalso. apply Hz. rewrite Hf. apply list_elem_of_fmap. exists y.
    split; [done|by apply list_elem_of_In].
  - exfalso. apply Hz. rewrite <- Hf. apply list_elem_of_fmap. exists x.
    split; [done|by apply list_elem_of_In].
Qed.

Lemma NoDup_fmap_filter {A B} (f : A → B) (P : A → bool) (l : list A) :
  NoDup (f <$> l) → NoDup (f <$> List.filter P l).
Proof.
  induction l as [|z l IH]; csimpl; [done|].
  rewrite NoDup_cons. intros [Hz Hl].
  destruct (P z); csimpl; [|by apply IH].
  apply NoDup_cons. split; [|by apply IH].
  intros Hin. apply Hz. apply list_elem_of_fmap in Hin as (y & -> & Hy).
  apply list_elem_of_fmap. exists y. split; [done|].
  apply list_elem_of_In. apply list_elem_of_In, filter_In in Hy. tauto.
Qed.

Lemma stored_None_not_in i w p :
  stored i w = None → In p (planningProject (db w)) → PlanningProject.id p ≠ i.
Proof.
  intros Hnone Hin Hid.
  pose proof (proj1 (find_none_iff _ _) Hnone p Hin) as Hp.
  unfold has_id in Hp. by rewrite bool_decide_eq_true_2 in Hp.
Qed.

Lemma stored_Some_in i w p :
  stored i w = Some p → In p (planningProject (db w)) ∧ PlanningProject.id p = i.
Proof.
  intros Hp. apply find_some in Hp as [Hin Hid].
  by apply bool_decide_eq_true in Hid.
Qed.

Lemma fmap_id_update i g (rows : list PlanningProject.t) :
  (∀ q, PlanningProject.id (g q) = PlanningProject.id q) →
  PlanningProject.id <$> List.map (λ q, if has_id i q then g q else q) rows
  = PlanningProject.id <$> rows.
Proof.
  intros Hg. induction rows as [|q rows IH]; csimpl; [done|].
  rewrite IH. by destruct (has_id i q); rewrite ?Hg.
Qed.

(** X7. The mutations keep the integrity of the database: if no two
    stored projects have the same id and every link to a map is the link
    of a stored project, the same holds after any call of
    [updatePlanningProject], [deletePlanningProject] or
    [createPlanningProject]; a delete leaves no link behind. *)
Theorem mutations_keep_database_integrity
    (is_uuid : string → bool) (gen_random_uuid : nat → string)
    (raw : JsValue) (ctx : Ctx) (w : World) :
  pk_unique (db w) → links_resolve (db w) →
  (pk_unique (db (snd (updatePlanningProject is_uuid raw ctx w)))
   ∧ links_resolve (db (snd (updatePlanningProject is_uuid raw ctx w))))
  ∧ (pk_unique (db (snd (deletePlanningProject is_uuid raw ctx w)))
     ∧ links_resolve (db (snd (deletePlanningProject is_uuid raw ctx w))))
  ∧ (pk_unique (db (snd (createPlanningProject gen_random_uuid raw ctx w)))
     ∧ links_resolve (db (snd (createPlanningProject gen_random_uuid raw ctx w)))).
Proof.
  intros Hpk Hlinks. split; [|split].
  - destruct (updatePlanningProject_database is_uuid raw ctx w)
      as [->|(input & p & _ & _ & _ & ->)]; [done|].
    unfold pk_unique, links_resolve; simpl. split.
    + by rewrite fmap_id_update.
    + intros m Hm. destruct (Hlinks m Hm) as (q & Hq & Hid).
      eexists. split; [apply in_map, Hq|]. simpl. by destruct (has_id _ q).
  - destruct (deletePlanningProject_database is_uuid raw ctx w)
      as [->|(input & p & _ & _ & _ & ->)]; [done|].
    unfold pk_unique, links_resolve; simpl. split.
    + by apply NoDup_fmap_filter.
    + intros m Hm. apply filter_In in Hm as [Hm Hne].
      apply negb_true_iff, bool_decide_eq_false in Hne.
      destruct (Hlinks m Hm) as (q & Hq & Hid).
      exists q. split; [|done]. apply filter_In. split; [done|].
      apply negb_true_iff, bool_decide_eq_false. congruence.
  - destruct (createPlanningProject_database gen_random_uuid raw ctx w)
      as [->|(p & _ & Hfresh & _ & _ & ->)]; [done|].
    unfold pk_unique, links_resolve; simpl. split.
    + rewrite fmap_app. apply NoDup_app. split; [done|]. split.
      * intros i Hi Hin. apply list_elem_of_fmap in Hi as (q & -> & Hq).
        csimpl in Hin. apply list_elem_of_singleton in Hin.
        by apply (stored_None_not_in _ w q Hfresh); [apply list_elem_of_In|].
      * csimpl. apply NoDup_singleton.
    + intros m Hm. destruct (Hlinks m Hm) as (q & Hq & Hid).
      exists q. split; [|done]. apply in_or_app. by left.
Qed.

Lemma LinkedFixtures_integrity :
  pk_unique (db LinkedFixtures.world) ∧ links_resolve (db LinkedFixtures.world).
Proof.
  split.
  - unfold pk_unique. apply (bool_decide_unpack _). by vm_compute.
  - intros m [<-|[<-|[]]].
    + exists Fixtures.bike_plan. split; [simpl; tauto | reflexivity].
    + exists Fixtures.food_plan. split; [simpl; tauto | reflexivity].
Defined.

Lemma mutations_keep_database_integrity_witness :
  pk_unique
    (db (snd (deletePlanningProject Fixtures.is_uuid (Fixtures.id_only Fixtures.bike_plan_id)
                Fixtures.mockCtx LinkedFixtures.world)))
  ∧ links_resolve
      (db (snd (deletePlanningProject Fixtures.is_uuid
                  (Fixtures.id_only Fixtures.bike_plan_id)
                  Fixtures.mockCtx LinkedFixtures.world))).
Proof.
  destruct (mutations_keep_database_integrity Fixtures.is_uuid Fixtures.gen_random_uuid
              (Fixtures.id_only Fixtures.bike_plan_id) Fixtures.mockCtx LinkedFixtures.world
              (proj1 LinkedFixtures_integrity) (proj2 LinkedFixtures_integrity))
    as (_ & Hdelete & _).
  exact Hdelete.
Defined.

(** ** Isolation of the organizations *)

(** X8. A mutation only touches projects of the organization of the
    session.  With unique ids, whatever the input, a stored project of
    another organization (of any organization when the session has none)
    is stored unchanged after [updatePlanningProject],
    [deletePlanningProject] and [createPlanningProject], no such project
    appears, and the links of such a project to maps are the same. *)
Theorem writes_stay_in_the_organization
    (is_uuid : string → bool) (gen_random_uuid : nat → string)
    (raw : JsValue) (ctx : Ctx) (w : World) (p : PlanningProject.t) :
  pk_unique (db w) →
  orgId (session ctx) ≠ Some (PlanningProject.organizationId p) →
  (In p (planningProject (db (snd (updatePlanningProject is_uuid raw ctx w))))
   ↔ In p (planningProject (db w)))
  ∧ (In p (planningProject (db (snd (deletePlanningProject is_uuid raw ctx w))))
     ↔ In p (planningProject (db w)))
  ∧ (In p (planningProject (db (snd (createPlanningProject gen_random_uuid raw ctx w))))
     ↔ In p (planningProject (db w)))
  ∧ (In p (planningProject (db w)) →
     ∀ m, PlanningProjectMap.planningProjectId m = PlanningProject.id p →
          (In m (planningProjectMap (db (snd (updatePlanningProject is_uuid raw ctx w))))
           ↔ In m (planningProjectMap (db w)))
          ∧ (In m (planningProjectMap (db (snd (deletePlanningProject is_uuid raw ctx w))))
             ↔ In m (planningProjectMap (db w)))
          ∧ (In m (planningProjectMap
                     (db (snd (createPlanningProject gen_random_uuid raw ctx w))))
             ↔ In m (planningProjectMap (db w)))).
Proof.
  intros Hpk Hforeign.
  assert (Hother : ∀ i p0, stored i w = Some p0 →
            orgId (session ctx) = Some (PlanningProject.organizationId p0) →
            In p (planningProject (db w)) → has_id i p = false).
  { intros i p0 Hp0 Horg Hin. apply bool_decide_eq_false. intros Hid.
    apply stored_Some_in in Hp0 as [Hin0 Hid0].
    assert (p = p0) as -> by (apply (NoDup_fmap_In_inj _ _ _ _ Hpk); congruence).
    congruence. }
  split; [|split; [|split]].
  - destruct (updatePlanningProject_database is_uuid raw ctx w)
      as [->|(input & p0 & _ & Hp0 & Horg & ->)]; [done|]. simpl.
    rewrite in_map_iff. split.
    + intros (q & Hq & Hin). destruct (has_id (upd_id input) q) eqn:Hi; [|by subst].
      exfalso. apply bool_decide_eq_true in Hi.
      pose proof (stored_Some_in _ _ _ Hp0) as [Hin0 Hid0].
      assert (q = p0) as -> by (apply (NoDup_fmap_In_inj _ _ _ _ Hpk); congruence).
      subst p. simpl in Hforeign. congruence.
    + intros Hin. exists p. split; [|done]. by rewrite (Hother _ _ Hp0 Horg Hin).
  - destruct (deletePlanningProject_database is_uuid raw ctx w)
      as [->|(input & p0 & _ & Hp0 & Horg & ->)]; [done|]. simpl.
    rewrite filter_In. split; [tauto|].
    intros Hin. split; [done|]. by rewrite (Hother _ _ Hp0 Horg Hin).
  - destruct (createPlanningProject_database gen_random_uuid raw ctx w)
      as [->|(p0 & _ & _ & Horg & _ & ->)]; [done|]. simpl.
    rewrite in_app_iff. split; [|tauto].
    intros [Hin|[<-|[]]]; [done|]. congruence.
  - intros Hin m Hm. split; [|split].
    + by destruct (updatePlanningProject_database is_uuid raw ctx w)
        as [->|(input & p0 & _ & _ & _ & ->)].
    + destruct (deletePlanningProject_database is_uuid raw ctx w)
        as [->|(input & p0 & _ & Hp0 & Horg & ->)]; [done|]. simpl.
      rewrite filter_In. split; [tauto|]. intros Hmin. split; [done|].
      apply negb_true_iff, bool_decide_eq_false. rewrite Hm.
      pose proof (Hother _ _ Hp0 Horg Hin) as Hne.
      by apply bool_decide_eq_false in Hne.
    + by destruct (createPlanningProject_database gen_random_uuid raw ctx w)
        as [->|(p0 & _ & _ & _ & _ & ->)].
Qed.

Lemma writes_stay_in_the_organization_witness :
  (In Fixtures.food_plan
      (planningProject
         (db (snd (updatePlanningProject Fixtures.is_uuid
                     (JsObject [("id", JsString Fixtures.food_plan_id);
                                ("status", JsString "ARCHIVED")])
                     Fixtures.mockCtx LinkedFixtures.world))))
   ↔ In Fixtures.food_plan (planningProject (db LinkedFixtures.world)))
  ∧ (In Fixtures.food_plan
       (planningProject
          (db (snd (deletePlanningProject Fixtures.is_uuid
                      (JsObject [("id", JsString Fixtures.food_plan_id);
                                 ("status", JsString "ARCHIVED")])
                      Fixtures.mockCtx LinkedFixtures.world))))
     ↔ In Fixtures.food_plan (planningProject (db LinkedFixtures.world))).
Proof.
  destruct (writes_stay_in_the_organization Fixtures.is_uuid Fixtures.gen_random_uuid
              (JsObject [("id", JsString Fixtures.food_plan_id);
                         ("status", JsString "ARCHIVED")])
              Fixtures.mockCtx LinkedFixtures.world Fixtures.food_plan
              (proj1 LinkedFixtures_integrity)) as (Hupdate & Hdelete & _).
  - simpl. discriminate.
  - by split.
Defined.

(** ** Columns an update cannot reach *)

Lemma find_map_update i g j (rows : list PlanningProject.t) :
  (∀ q, PlanningProject.id (g q) = PlanningProject.id q) →
  List.find (has_id j) (List.map (λ q, if has_id i q then g q else q) rows)
  = (λ q, if has_id i q then g q else q) <$> List.find (has_id j) rows.
Proof.
  intros Hg. induction rows as [|q rows IH]; simpl; [done|].
  rewrite (has_id_upd i g Hg j q). by destruct (has_id j q).
Qed.

(** X9. [updatePlanningProject] never changes the id, the organization,
    the creator or the creation date of a project: for every input, with
    whatever properties, and every session, each stored project has the
    same four values after the call as before, so that an update cannot
    move a project to another organization. *)
Theorem update_keeps_fixed_columns
    (is_uuid : string → bool) (raw : JsValue) (ctx : Ctx) (w : World) (j : string) :
  fixed_columns <$> stored j (snd (updatePlanningProject is_uuid raw ctx w))
  = fixed_columns <$> stored j w.
Proof.
  destruct (updatePlanningProject_database is_uuid raw ctx w)
    as [Hdb|(input & p & _ & _ & _ & Hdb)]; unfold stored; rewrite Hdb; [done|].
  simpl. rewrite find_map_update by done.
  destruct (List.find (has_id j) (planningProject (db w))) as [q|]; simpl; [|done].
  by destruct (has_id (upd_id input) q).
Qed.

(** ** Properties the schemas do not name *)

Lemma UpdatePlanningProjectSchema_same_on is_uuid props props' :
  same_on UpdatePlanningProjectSchema_keys props props' →
  UpdatePlanningProjectSchema is_uuid (JsObject props)
  = UpdatePlanningProjectSchema is_uuid (JsObject props').
Proof.
  intros H. unfold UpdatePlanningProjectSchema, z_object.
  rewrite (H "id"), (H "name"), (H "description"), (H "type"), (H "status"),
    (H "config"), (H "conversationHistory"); [done|simpl; tauto..].
Qed.

Lemma CreatePlanningProjectSchema_same_on props props' :
  same_on CreatePlanningProjectSchema_keys props props' →
  CreatePlanningProjectSchema (JsObject props) = CreatePlanningProjectSchema (JsObject props').
Proof.
  intros H. unfold CreatePlanningProjectSchema, z_object.
  rewrite (H "name"), (H "description"), (H "type"); [done|simpl; tauto..].
Qed.

Lemma get_prop_extra k v props key :
  key ≠ k → get_prop key ((k, v) :: props) = get_prop key props.
Proof.
  intros Hne. simpl. destruct (String.eqb k key) eqn:Heq; [|done].
  apply String.eqb_eq in Heq. congruence.
Qed.

(** X10. The mutations read the properties their schema names and no
    other: two inputs with the same values under these names have the same
    outcome in the same world.  In particular a property such as
    [organizationId], [createdById] or, for a new project, [status], added
    to an input changes nothing. *)
Theorem undeclared_properties_are_ignored
    (is_uuid : string → bool) (gen_random_uuid : nat → string) (ctx : Ctx) (w : World)
    (props props' : list (string * JsValue)) :
  (same_on UpdatePlanningProjectSchema_keys props props' →
   updatePlanningProject is_uuid (JsObject props) ctx w
   = updatePlanningProject is_uuid (JsObject props') ctx w)
  ∧ (same_on CreatePlanningProjectSchema_keys props props' →
     createPlanningProject gen_random_uuid (JsObject props) ctx w
     = createPlanningProject gen_random_uuid (JsObject props') ctx w)
  ∧ (∀ k v,
       ¬ In k UpdatePlanningProjectSchema_keys →
       updatePlanningProject is_uuid (JsObject ((k, v) :: props)) ctx w
       = updatePlanningProject is_uuid (JsObject props) ctx w)
  ∧ (∀ k v,
       ¬ In k CreatePlanningProjectSchema_keys →
       createPlanningProject gen_random_uuid (JsObject ((k, v) :: props)) ctx w
       = createPlanningProject gen_random_uuid (JsObject props) ctx w).
Proof.
  assert (Hextra : ∀ keys k v, ¬ In k keys → same_on keys ((k, v) :: props) props).
  { intros keys k v Hk key Hkey. apply get_prop_extra. congruence. }
  split; [|split; [|split]].
  - intros H. unfold updatePlanningProject. rewrite !resolver_pipe_cases.
    by rewrite (UpdatePlanningProjectSchema_same_on _ _ _ H).
  - intros H. unfold createPlanningProject. rewrite !resolver_pipe_cases.
    by rewrite (CreatePlanningProjectSchema_same_on _ _ H).
  - intros k v Hk. unfold updatePlanningProject. rewrite !resolver_pipe_cases.
    by rewrite (UpdatePlanningProjectSchema_same_on _ _ _ (Hextra _ k v Hk)).
  - intros k v Hk. unfold createPlanningProject. rewrite !resolver_pipe_cases.
    by rewrite (CreatePlanningProjectSchema_same_on _ _ (Hextra _ k v Hk)).
Qed.

Lemma undeclared_properties_are_ignored_witness :
  updatePlanningProject Fixtures.is_uuid
    (JsObject [("organizationId", JsNumber 2); ("id", JsString Fixtures.bike_plan_id);
               ("name", JsString "Bike Plan 2030")])
    Fixtures.mockCtx Fixtures.world
  = updatePlanningProject Fixtures.is_uuid
      (JsObject [("id", JsString Fixtures.bike_plan_id); ("name", JsString "Bike Plan 2030")])
      Fixtures.mockCtx Fixtures.world.
Proof.
  destruct (undeclared_properties_are_ignored Fixtures.is_uuid Fixtures.gen_random_uuid
              Fixtures.mockCtx Fixtures.world
              [("id", JsString Fixtures.bike_plan_id); ("name", JsString "Bike Plan 2030")]
              []) as (_ & _ & Hupdate & _).
  apply (Hupdate "organizationId" (JsNumber 2)).
  simpl. intros [H|[H|[H|[H|[H|[H|[H|[]]]]]]]]; discriminate H.
Defined.

(** ** One call after another *)

Lemma find_matches_unknown_id i o w :
  stored i w = None →
  List.find
    (matches {| where_id := Some i; where_organizationId := o; where_status := None |})
    (planningProject (db w)) = None.
Proof.
  intros Hnone. apply find_none_iff. intros p Hin.
  pose proof (proj1 (find_none_iff _ _) Hnone p Hin) as Hp.
  unfold matches, has_id in *; simpl. by rewrite Hp.
Qed.

Lemma find_matches_first i o (rows : list PlanningProject.t) p :
  List.find (has_id i) rows = Some p →
  opt_matches o (PlanningProject.organizationId p) = true →
  List.find
    (matches {| where_id := Some i; where_organizationId := o; where_status := None |})
    rows = Some p.
Proof.
  intros Hfind Horg. induction rows as [|q rows IH]; simpl in *; [done|].
  unfold matches at 1; simpl. fold (has_id i q).
  destruct (has_id i q) eqn:Hq; simpl.
  - injection Hfind as ->. by rewrite Horg.
  - by apply IH.
Qed.

Lemma IdSchema_id_only is_uuid i :
  is_uuid i = true →
  GetPlanningProjectSchema is_uuid (JsObject [("id", JsString i)]) = inr {| inp_id := i |}
  ∧ DeletePlanningProjectSchema is_uuid (JsObject [("id", JsString i)])
    = inr {| inp_id := i |}.
Proof.
  intros Hi. unfold GetPlanningProjectSchema, DeletePlanningProjectSchema, z_object,
    z_string_uuid; simpl. by rewrite Hi.
Qed.

Lemma createPlanningProject_inv gen_random_uuid raw ctx w p w' :
  createPlanningProject gen_random_uuid raw ctx w = (Return p, w') →
  authorize (session ctx) = Return tt
  ∧ truthy_number (orgId (session ctx)) = Some (PlanningProject.organizationId p)
  ∧ PlanningProject.createdById p = userId (session ctx)
  ∧ stored (PlanningProject.id p) w = None
  ∧ db w' = with_planningProject (planningProject (db w) ++ [p])%list (db w).
Proof.
  unfold createPlanningProject. rewrite resolver_pipe_cases.
  destruct (CreatePlanningProjectSchema raw) as [issues|input]; [done|].
  destruct (authorize (session ctx)) as [[]|]; [|done].
  rewrite createPlanningProject_handler_cases.
  destruct (truthy_number _) as [org|] eqn:Horg; [|done].
  unfold db_create. fold (stored (gen_random_uuid (uuid_counter w)) w).
  destruct (stored _ w) eqn:Hfresh; [done|].
  intros [= <- <-]. simpl. by repeat split.
Qed.

(** X11. A project that [createPlanningProject] returned belongs to the
    organization of the session and is stored under its id; the same
    session then finds it in the list of [getPlanningProjects], and, when
    its id passes the UUID test, reads it back with [getPlanningProject]. *)
Theorem created_project_is_listed_and_read_back
    (is_uuid : string → bool) (gen_random_uuid : nat → string)
    (raw : JsValue) (ctx : Ctx) (w w' : World) (p : PlanningProject.t) :
  createPlanningProject gen_random_uuid raw ctx w = (Return p, w') →
  orgId (session ctx) = Some (PlanningProject.organizationId p)
  ∧ stored (PlanningProject.id p) w' = Some p
  ∧ (∃ items w'',
       getPlanningProjects (JsObject []) ctx w' = (Return items, w'')
       ∧ In p (item_project <$> items))
  ∧ (is_uuid (PlanningProject.id p) = true →
     ∃ w'',
       getPlanningProject is_uuid (JsObject [("id", JsString (PlanningProject.id p))]) ctx w'
       = (Return (detail (db w') p), w'')).
Proof.
  intros Hrun.
  destruct (createPlanningProject_inv _ _ _ _ _ _ Hrun)
    as (Hauth & Htruthy & _ & Hfresh & Hdb).
  pose proof (truthy_number_inv _ _ Htruthy) as [Horg Hnz].
  assert (Hself : has_id (PlanningProject.id p) p = true) by by apply bool_decide_eq_true.
  split; [done|]. split; [|split].
  - unfold stored. rewrite Hdb. simpl. by apply find_app_fresh.
  - unfold getPlanningProjects. rewrite resolver_pipe_cases. simpl. rewrite Hauth.
    rewrite getPlanningProjects_handler_cases, Htruthy. simpl.
    eexists _, _. split; [reflexivity|].
    rewrite item_project_list_item.
    apply list_elem_of_In. rewrite merge_sort_Permutation.
    apply list_elem_of_In, filter_In. rewrite Hdb. simpl. split.
    + apply in_or_app. right. by left.
    + apply matches_org_status. by split.
  - intros Huuid. unfold getPlanningProject. rewrite resolver_pipe_cases.
    rewrite (proj1 (IdSchema_id_only is_uuid _ Huuid)), Hauth.
    rewrite getPlanningProject_handler_cases. simpl.
    rewrite Hdb. simpl.
    rewrite (find_app_fresh _ _ p).
    + eexists. reflexivity.
    + by apply find_matches_unknown_id.
    + unfold matches; simpl. rewrite Horg. simpl.
      by rewrite !bool_decide_eq_true_2.
Qed.

Lemma created_project_is_listed_and_read_back_witness :
  ∃ p : PlanningProject.t,
    PlanningProject.name p = "Walk audit"
    ∧ stored "7d444840-9dc0-11d1-b245-5ffdce74fad2"
        (snd (createPlanningProject Fixtures.gen_random_uuid
                (JsObject [("name", JsString "Walk audit")]) Fixtures.mockCtx Fixtures.world))
      = Some p.
Proof.
  eexists. split; [|
    apply (created_project_is_listed_and_read_back Fixtures.is_uuid Fixtures.gen_random_uuid
             (JsObject [("name", JsString "Walk audit")]) Fixtures.mockCtx Fixtures.world
             _ _ eq_refl)].
  reflexivity.
Defined.

Lemma UpdatePlanningProjectSchema_id is_uuid raw input :
  UpdatePlanningProjectSchema is_uuid raw = inr input → is_uuid (upd_id input) = true.
Proof.
  unfold UpdatePlanningProjectSchema, z_object.
  destruct raw as [| | | | |items|props]; try discriminate.
  unfold z_string_uuid at 1.
  destruct (z_string ["id"] (get_prop "id" props)) as [?|i]; [discriminate|].
  destruct (is_uuid i) eqn:Hi; [|discriminate].
  destruct (z_optional z_string ["name"] _), (z_optional z_string ["description"] _),
    (z_optional (z_nativeEnum PlanningProjectType_values) ["type"] _),
    (z_optional (z_nativeEnum PlanningProjectStatus_values) ["status"] _),
    (z_optional z_any ["config"] _), (z_optional z_any ["conversationHistory"] _);
    try discriminate.
  by intros [= <-].
Qed.

Lemma updatePlanningProject_inv is_uuid raw ctx w out w' :
  updatePlanningProject is_uuid raw ctx w = (Return out, w') →
  ∃ input prior,
    UpdatePlanningProjectSchema is_uuid raw = inr input
    ∧ authorize (session ctx) = Return tt
    ∧ stored (upd_id input) w = Some prior
    ∧ orgId (session ctx) = Some (PlanningProject.organizationId prior)
    ∧ out = apply_data (rest_data input) (now w) prior
    ∧ db w' = with_planningProject
                (List.map (λ q, if has_id (upd_id input) q
                                then apply_data (rest_data input) (now w) q else q)
                   (planningProject (db w))) (db w)
    ∧ now w' = now w.
Proof.
  unfold updatePlanningProject. rewrite resolver_pipe_cases.
  destruct (UpdatePlanningProjectSchema is_uuid raw) as [issues|input]; [done|].
  destruct (authorize (session ctx)) as [[]|]; [|done].
  rewrite updatePlanningProject_handler_cases. simpl.
  destruct (stored (upd_id input) w) as [p|] eqn:Hp; [|done].
  destruct (strict_ne _ _) eqn:Hne; [done|].
  rewrite (db_update_found _ _ _ p) by done.
  intros [= <- <-]. exists input, p. simpl.
  repeat split; try done. by apply strict_ne_false.
Qed.

(** X12. What [updatePlanningProject] returned is what the same session
    reads back: after a successful update, [getPlanningProject] with the id
    of the returned project returns that project, with the values of the
    update. *)
Theorem updated_project_is_read_back
    (is_uuid : string → bool) (raw : JsValue) (ctx : Ctx) (w w' : World)
    (out : PlanningProject.t) :
  updatePlanningProject is_uuid raw ctx w = (Return out, w') →
  ∃ w'',
    getPlanningProject is_uuid (JsObject [("id", JsString (PlanningProject.id out))]) ctx w'
    = (Return (detail (db w') out), w'').
Proof.
  intros Hrun.
  destruct (updatePlanningProject_inv _ _ _ _ _ _ Hrun)
    as (input & prior & Hs & Hauth & Hprior & Horg & -> & Hdb & _).
  pose proof (UpdatePlanningProjectSchema_id _ _ _ Hs) as Huuid.
  pose proof (stored_Some_in _ _ _ Hprior) as [_ Hid].
  unfold getPlanningProject. rewrite resolver_pipe_cases.
  change (PlanningProject.id (apply_data (rest_data input) (now w) prior))
    with (PlanningProject.id prior).
  rewrite Hid, (proj1 (IdSchema_id_only is_uuid _ Huuid)), Hauth.
  rewrite getPlanningProject_handler_cases. simpl.
  rewrite (find_matches_first _ _ _ (apply_data (rest_data input) (now w) prior)).
  - eexists. reflexivity.
  - rewrite Hdb. simpl.
    by apply (find_updated _ (apply_data (rest_data input) (now w))).
  - rewrite Horg. simpl. by apply bool_decide_eq_true_2.
Qed.

Lemma updated_project_is_read_back_witness :
  ∃ w'',
    getPlanningProject Fixtures.is_uuid (Fixtures.id_only Fixtures.bike_plan_id)
      Fixtures.mockCtx
      (snd (updatePlanningProject Fixtures.is_uuid
              (JsObject [("id", JsString Fixtures.bike_plan_id);
                         ("description", JsString "Protected lanes")])
              Fixtures.mockCtx LinkedFixtures.world))
    = (Return
         (detail
            (db (snd (updatePlanningProject Fixtures.is_uuid
                        (JsObject [("id", JsString Fixtures.bike_plan_id);
                                   ("description", JsString "Protected lanes")])
                        Fixtures.mockCtx LinkedFixtures.world)))
            (apply_data
               {| data_name := None; data_description := Some "Protected lanes";
                  data_type := None; data_status := None; data_config := None;
                  data_conversationHistory := None |} 5000 Fixtures.bike_plan)),
       w'').
Proof.
  apply (updated_project_is_read_back Fixtures.is_uuid
           (JsObject [("id", JsString Fixtures.bike_plan_id);
                      ("description", JsString "Protected lanes")])
           Fixtures.mockCtx LinkedFixtures.world _ _ eq_refl).
Defined.

Lemma deletePlanningProject_inv is_uuid raw ctx w r w' :
  deletePlanningProject is_uuid raw ctx w = (Return r, w') →
  ∃ input,
    DeletePlanningProjectSchema is_uuid raw = inr input
    ∧ authorize (session ctx) = Return tt
    ∧ planningProject (db w')
      = List.filter (λ q, negb (has_id (inp_id input) q)) (planningProject (db w)).
Proof.
  unfold deletePlanningProject. rewrite resolver_pipe_cases.
  destruct (DeletePlanningProjectSchema is_uuid raw) as [issues|input]; [done|].
  destruct (authorize (session ctx)) as [[]|]; [|done].
  rewrite deletePlanningProject_handler_cases. simpl.
  destruct (stored (inp_id input) w) as [p|] eqn:Hp; [|done].
  destruct (strict_ne _ _) eqn:Hne; [done|].
  rewrite (db_delete_found _ _ p) by done.
  intros [= <- <-]. by exists input.
Qed.

(** X13. A deleted project is gone for every later call: after a
    successful [deletePlanningProject], doing the same delete again and
    reading the id with [getPlanningProject] both throw "Planning project
    not found", for any session that passes [$authorize], and no list of
    [getPlanningProjects] holds a project of that id. *)
Theorem deleted_project_is_gone
    (is_uuid : string → bool) (raw : JsValue) (ctx : Ctx) (w w' : World)
    (r : DeleteResult) :
  deletePlanningProject is_uuid raw ctx w = (Return r, w') →
  ∃ input,
    DeletePlanningProjectSchema is_uuid raw = inr input
    ∧ stored (inp_id input) w' = None
    ∧ ∀ ctx', authorize (session ctx') = Return tt →
        fst (deletePlanningProject is_uuid raw ctx' w')
        = Throw (Error "Planning project not found")
        ∧ fst (getPlanningProject is_uuid raw ctx' w')
          = Throw (Error "Planning project not found")
        ∧ ∀ raw' items, fst (getPlanningProjects raw' ctx' w') = Return items →
            ∀ p, In p (item_project <$> items) → PlanningProject.id p ≠ inp_id input.
Proof.
  intros Hrun.
  destruct (deletePlanningProject_inv _ _ _ _ _ _ Hrun) as (input & Hs & _ & Hrows).
  assert (Hgone : stored (inp_id input) w' = None).
  { unfold stored. rewrite Hrows. apply find_filter_out. }
  exists input. split; [done|]. split; [done|].
  intros ctx' Hauth. split; [|split].
  - enter_handler deletePlanningProject Hs Hauth.
    by rewrite deletePlanningProject_handler_cases, Hgone.
  - unfold getPlanningProject. rewrite resolver_pipe_cases.
    change (GetPlanningProjectSchema is_uuid raw)
      with (DeletePlanningProjectSchema is_uuid raw).
    rewrite Hs, Hauth, getPlanningProject_handler_cases. simpl.
    by rewrite find_matches_unknown_id.
  - intros raw' items. unfold getPlanningProjects. rewrite resolver_pipe_cases.
    destruct (GetPlanningProjectsSchema raw') as [issues|input']; [done|].
    rewrite Hauth, getPlanningProjects_handler_cases.
    destruct (truthy_number _) as [org|]; [|done]. simpl.
    intros [= <-] p. rewrite item_project_list_item.
    intros Hin. apply list_elem_of_In in Hin. rewrite merge_sort_Permutation in Hin.
    apply list_elem_of_In, filter_In in Hin as [Hin _].
    by apply (stored_None_not_in _ w').
Qed.

Lemma deleted_project_is_gone_witness :
  ∃ input,
    DeletePlanningProjectSchema Fixtures.is_uuid (Fixtures.id_only Fixtures.bike_plan_id)
    = inr input
    ∧ stored (inp_id input)
        (snd (deletePlanningProject Fixtures.is_uuid (Fixtures.id_only Fixtures.bike_plan_id)
                Fixtures.mockCtx LinkedFixtures.world)) = None.
Proof.
  destruct (deleted_project_is_gone Fixtures.is_uuid (Fixtures.id_only Fixtures.bike_plan_id)
              Fixtures.mockCtx LinkedFixtures.world _ _ eq_refl) as (input & Hs & Hgone & _).
  by exists input.
Defined.

(** ** What the queries return *)




(** X15. The list of [getPlanningProjects] holds every matching project
    exactly once: its projects are a rearrangement of the stored rows of
    the organization (of the requested status, if any), so it is as long as
    there are such rows and, with unique ids, no id comes twice; and
    [_count.linkedMaps] of an element is the number of links of that
    project. *)
Theorem getPlanningProjects_lists_each_project_once
    (raw : JsValue) (ctx : Ctx) (w : World) (org : Z) (input : GetPlanningProjectsInput) :
  authorize (session ctx) = Return tt →
  orgId (session ctx) = Some org → org ≠ 0 →
  GetPlanningProjectsSchema raw = inr input →
  let matching :=
    List.filter
      (matches {| where_id := None; where_organizationId := Some org;
                  where_status := inp_status input |})
      (planningProject (db w)) in
  ∃ items w',
    getPlanningProjects raw ctx w = (Return items, w')
    ∧ item_project <$> items ≡ₚ matching
    ∧ length items = length matching
    ∧ (pk_unique (db w) → NoDup (PlanningProject.id <$> (item_project <$> items)))
    ∧ Forall (λ item,
                item_count_linkedMaps item
                = length (List.filter
                            (λ m, bool_decide (PlanningProjectMap.planningProjectId m
                                               = PlanningProject.id (item_project item)))
                            (planningProjectMap (db w)))) items.
Proof.
  intros Hauth Horg Hnz Hs matching.
  enter_handler getPlanningProjects Hs Hauth.
  rewrite (getPlanningProjects_handler_run _ _ org) by by apply truthy_number_Some.
  fold matching.
  eexists _, _. split; [reflexivity|].
  rewrite item_project_list_item.
  split; [apply merge_sort_Permutation|].
  split; [by rewrite length_fmap, merge_sort_Permutation|].
  split.
  - intros Hpk. rewrite merge_sort_Permutation. by apply NoDup_fmap_filter.
  - apply Forall_fmap, Forall_forall. by intros p _.
Qed.

Lemma getPlanningProjects_lists_each_project_once_witness :
  ∃ items w',
    getPlanningProjects (JsObject []) Fixtures.mockCtx LinkedFixtures.world
    = (Return items, w')
    ∧ length items = 2%nat.
Proof.
  destruct (getPlanningProjects_lists_each_project_once (JsObject []) Fixtures.mockCtx
              LinkedFixtures.world 1 {| inp_status := None |})
    as (items & w' & Hrun & _ & Hlen & _); [reflexivity | reflexivity | discriminate
                                            | reflexivity |].
  by exists items, w'.
Defined.



(** * Further properties of the components *)

(** ** The delete button, declined or followed by a failed refresh *)

(** X17. [handleDelete] does nothing when the user declines the
    confirmation: the mutation is not called and no toast is shown.  When
    the mutation succeeds and the invalidation of the list then fails, the
    exception of the invalidation is caught like one of the mutation: it
    goes to Sentry and the toast is "Failed to delete planning project",
    not the success toast. *)
Theorem handleDelete_declined_or_refresh_failed
    (confirm : string → bool) (mutation : JsValue → Outcome DeleteResult)
    (invalidateQuery : Outcome unit) (id name : string) (trace : list UiEffect) :
  let message := "Are you sure you want to delete " +:+ dquote +:+ name +:+ dquote +:+ "?" in
  let input := JsObject [("id", JsString id)] in
  (confirm message = false →
   handleDelete confirm mutation invalidateQuery id name trace
   = (Return tt, (trace ++ [window_confirm message])%list))
  ∧ (∀ r e, confirm message = true →
            mutation input = Return r → invalidateQuery = Throw e →
            handleDelete confirm mutation invalidateQuery id name trace
            = (Return tt,
               (trace ++ [window_confirm message;
                          call_deletePlanningProject input;
                          invalidateQuery_getPlanningProjects;
                          Sentry_captureException e;
                          toast_error "Failed to delete planning project"])%list)).
Proof.
  intros message input. split.
  - intros Hno. unfold handleDelete, bind, effect. fold message. by rewrite Hno.
  - intros r e Hyes Hr Hinv. unfold handleDelete, bind, try_catch, effect.
    fold message. rewrite Hyes. simpl. fold input. rewrite Hr, Hinv.
    by rewrite <- !app_assoc.
Qed.

Lemma handleDelete_declined_or_refresh_failed_witness :
  handleDelete (λ _, false)
    (λ raw, fst (deletePlanningProject Fixtures.is_uuid raw Fixtures.mockCtx Fixtures.world))
    (Return tt) Fixtures.bike_plan_id "Bike Plan" []
  = (Return tt,
     [window_confirm
        ("Are you sure you want to delete " +:+ dquote +:+ "Bike Plan" +:+ dquote +:+ "?")]).
Proof.
  destruct (handleDelete_declined_or_refresh_failed (λ _, false)
              (λ raw, fst (deletePlanningProject Fixtures.is_uuid raw Fixtures.mockCtx
                             Fixtures.world))
              (Return tt) Fixtures.bike_plan_id "Bike Plan" []) as [Hno _].
  apply Hno. reflexivity.
Defined.

(** ** The form of the create popover *)

(** X18. [onSubmit] of the create form never rejects and always leaves
    [isSubmitting] false.  When the mutation fails, the exception goes to
    Sentry, the toast is "Failed to create planning project", the form is
    not reset and the popover stays as it was; when the mutation and the
    invalidation succeed, the success toast is shown, the form is reset and
    the popover is closed. *)
Theorem onSubmit_settles
    (mutation : JsValue → Outcome PlanningProject.t) (invalidateQuery : Outcome unit)
    (values : JsValue) (s : CreatePlanningProjectForm.State) :
  let result := CreatePlanningProjectForm.onSubmit mutation invalidateQuery values s in
  fst result = Return tt
  ∧ CreatePlanningProjectForm.isSubmitting (snd result) = false
  ∧ (∀ e, mutation values = Throw e →
          CreatePlanningProjectForm.open (snd result) = CreatePlanningProjectForm.open s
          ∧ CreatePlanningProjectForm.trace (snd result)
            = (CreatePlanningProjectForm.trace s
               ++ [CreatePlanningProjectForm.call_createPlanningProject values;
                   CreatePlanningProjectForm.Sentry_captureException e;
                   CreatePlanningProjectForm.toast_error
                     "Failed to create planning project"])%list)
  ∧ (∀ p, mutation values = Return p → invalidateQuery = Return tt →
          CreatePlanningProjectForm.open (snd result) = false
          ∧ CreatePlanningProjectForm.trace (snd result)
            = (CreatePlanningProjectForm.trace s
               ++ [CreatePlanningProjectForm.call_createPlanningProject values;
                   CreatePlanningProjectForm.invalidateQuery_getPlanningProjects;
                   CreatePlanningProjectForm.toast_success "Planning project created";
                   CreatePlanningProjectForm.actions_resetForm])%list).
Proof.
  intros result. subst result.
  unfold CreatePlanningProjectForm.onSubmit, bind, finally, try_catch,
    CreatePlanningProjectForm.effect, CreatePlanningProjectForm.setIsSubmitting,
    CreatePlanningProjectForm.setOpen.
  simpl.
  destruct (mutation values) as [p|e]; simpl.
  - destruct invalidateQuery as [[]|e]; simpl.
    + split; [done|]. split; [done|]. split; [done|].
      intros p' _ _. split; [done|]. by rewrite <- !app_assoc.
    + split; [done|]. split; [done|]. by split.
  - split; [done|]. split; [done|]. split; [|done].
    intros e' [= <-]. split; [done|]. by rewrite <- !app_assoc.
Qed.

Lemma onSubmit_settles_witness :
  let s := {| CreatePlanningProjectForm.open := true;
              CreatePlanningProjectForm.isSubmitting := false;
              CreatePlanningProjectForm.trace := [] |} in
  let result :=
    CreatePlanningProjectForm.onSubmit
      (λ raw, fst (createPlanningProject Fixtures.gen_random_uuid raw Fixtures.ctxWithoutOrg
                     Fixtures.world))
      (Return tt) (JsObject [("name", JsString "Walk audit")]) s in
  CreatePlanningProjectForm.open (snd result) = true
  ∧ CreatePlanningProjectForm.trace (snd result)
    = [CreatePlanningProjectForm.call_createPlanningProject
         (JsObject [("name", JsString "Walk audit")]);
       CreatePlanningProjectForm.Sentry_captureException (Error "No organization found");
       CreatePlanningProjectForm.toast_error "Failed to create planning project"].
Proof.
  intros s result.
  destruct (onSubmit_settles
              (λ raw, fst (createPlanningProject Fixtures.gen_random_uuid raw
                             Fixtures.ctxWithoutOrg Fixtures.world))
              (Return tt) (JsObject [("name", JsString "Walk audit")]) s)
    as (_ & _ & Hfail & _).
  apply (Hfail (Error "No organization found")). reflexivity.
Defined.

Lemma form_schema_fields props values :
  CreatePlanningProjectForm.CreatePlanningProjectSchema (JsObject props) = inr values →
  get_prop "name" props = JsString (CreatePlanningProjectForm.name values)
  ∧ CreatePlanningProjectForm.name values ≠ ""
  ∧ z_nativeEnum PlanningProjectType_values ["type"] (get_prop "type" props)
    = inr (CreatePlanningProjectForm.type values)
  ∧ z_optional z_string ["description"] (get_prop "description" props)
    = inr (CreatePlanningProjectForm.description values).
Proof.
  unfold CreatePlanningProjectForm.CreatePlanningProjectSchema,
    CreatePlanningProjectForm.z_string_min, CreatePlanningProjectForm.lift.
  destruct (get_prop "name" props) as [| | | |n| |]; simpl;
    try (intros H; exfalso; revert H;
         by destruct (z_nativeEnum _ _ _), (z_optional _ _ _)).
  destruct (String.length n <? 1)%nat eqn:Hlen;
    destruct (z_nativeEnum PlanningProjectType_values ["type"] _) as [?|t],
             (z_optional z_string ["description"] _) as [?|d];
    try discriminate.
  intros [= <-]. simpl. repeat split.
  intros ->. by simpl in Hlen.
Qed.

(** X19. Values the form accepts are values the mutation accepts: an input
    that passes the schema of the create form passes the schema of
    [createPlanningProject], with a name that is not empty, so that the
    project is created under the name and the type of the form and never
    under the default name. *)
Theorem form_values_pass_the_server_schema
    (raw : JsValue) (values : CreatePlanningProjectForm.FormValues) :
  CreatePlanningProjectForm.CreatePlanningProjectSchema raw = inr values →
  CreatePlanningProjectSchema raw
  = inr {| crt_name := Some (CreatePlanningProjectForm.name values);
           crt_description := CreatePlanningProjectForm.description values;
           crt_type := Some (CreatePlanningProjectForm.type values) |}
  ∧ ∀ gen_random_uuid ctx w org,
      authorize (session ctx) = Return tt →
      orgId (session ctx) = Some org → org ≠ 0 →
      calls (snd (createPlanningProject gen_random_uuid raw ctx w))
      = (calls w
         ++ [planningProject_create
               {| new_name := CreatePlanningProjectForm.name values;
                  new_description :=
                    or_string (CreatePlanningProjectForm.description values) "";
                  new_type := CreatePlanningProjectForm.type values;
                  new_status := DRAFT;
                  new_organizationId := org;
                  new_createdById := userId (session ctx) |}])%list.
Proof.
  intros Hform.
  destruct raw as [| | | | |items|props]; try discriminate.
  destruct (form_schema_fields _ _ Hform) as (Hname & Hne & Htype & Hdesc).
  assert (Hs : CreatePlanningProjectSchema (JsObject props)
               = inr {| crt_name := Some (CreatePlanningProjectForm.name values);
                        crt_description := CreatePlanningProjectForm.description values;
                        crt_type := Some (CreatePlanningProjectForm.type values) |}).
  { unfold CreatePlanningProjectSchema, z_object.
    rewrite Hname, Hdesc. simpl.
    unfold z_optional. rewrite Htype.
    by destruct (get_prop "type" props). }
  split; [done|].
  intros gen_random_uuid ctx w org Hauth Horg Hnz.
  enter_handler createPlanningProject Hs Hauth.
  rewrite createPlanningProject_handler_cases, (truthy_number_Some _ _ Horg Hnz).
  unfold db_create. simpl. rewrite bool_decide_eq_false_2 by done.
  by destruct (List.find _ _).
Qed.

Lemma form_values_pass_the_server_schema_witness :
  CreatePlanningProjectSchema
    (JsObject [("name", JsString "Walk audit"); ("type", JsString "WALKABILITY_STUDY");
               ("description", JsString "")])
  = inr {| crt_name := Some "Walk audit"; crt_description := Some "";
           crt_type := Some WALKABILITY_STUDY |}.
Proof.
  apply (form_values_pass_the_server_schema
           (JsObject [("name", JsString "Walk audit"); ("type", JsString "WALKABILITY_STUDY");
                      ("description", JsString "")])
           {| CreatePlanningProjectForm.name := "Walk audit";
              CreatePlanningProjectForm.type := WALKABILITY_STUDY;
              CreatePlanningProjectForm.description := Some "" |}).
  reflexivity.
Defined.

(** ** The index page and the list it shows *)



(** ** The status badge *)

Lemma occurrences_replace c d s :
  c ≠ d →
  occurrences c (PlanningProjectListView.replace c d s) = Nat.pred (occurrences c s).
Proof.
  intros Hne. induction s as [|x s IH]; simpl; [done|].
  destruct (Ascii.eqb x c) eqn:Hx; simpl.
  - destruct (Ascii.eqb d c) eqn:Hd; [|done].
    apply Ascii.eqb_eq in Hd. congruence.
  - by rewrite Hx.
Qed.

(** X21. [replace] takes out one occurrence of the character it replaces,
    the first, and the text of the status badge of a row has no underscore
    left, whatever the status of the project: no status has more than
    one. *)
Theorem status_badge_has_no_underscore :
  (∀ c d s, c ≠ d →
            occurrences c (PlanningProjectListView.replace c d s)
            = Nat.pred (occurrences c s))
  ∧ ∀ item,
      occurrences PlanningProjectListView.underscore
        (PlanningProjectListView.status_text (PlanningProjectListView.row item)) = 0%nat.
Proof.
  split; [apply occurrences_replace|].
  intros item. unfold PlanningProjectListView.row; simpl.
  rewrite occurrences_replace by done.
  by destruct (PlanningProject.status (item_project item)).
Qed.

Lemma status_badge_has_no_underscore_witness :
  occurrences PlanningProjectListView.underscore
    (PlanningProjectListView.replace PlanningProjectListView.underscore
       PlanningProjectListView.space "IN_PROGRESS")
  = Nat.pred (occurrences PlanningProjectListView.underscore "IN_PROGRESS").
Proof.
  destruct status_badge_has_no_underscore as [Hreplace _].
  apply Hreplace. discriminate.
Defined.

(** The strings of the statuses are those of the enum. *)
Lemma status_string_values s :
  enum_lookup PlanningProjectStatus_values (PlanningProjectListView.status_string s) = Some s.
Proof. by destruct s. Qed.

(** ** Isolation of the organizations, reading *)

(** X22. A session that has an organization reads nothing of another
    one: whatever the input, the project [getPlanningProject] returns and
    every project of the list [getPlanningProjects] returns has the
    [organizationId] of the session. *)
Theorem reads_stay_in_the_organization
    (is_uuid : string → bool) (raw : JsValue) (ctx : Ctx) (w : World) (org : Z) :
  orgId (session ctx) = Some org →
  (∀ result, fst (getPlanningProject is_uuid raw ctx w) = Return result →
             PlanningProject.organizationId (detail_project result) = org
             ∧ In (detail_project result) (planningProject (db w)))
  ∧ (∀ items, fst (getPlanningProjects raw ctx w) = Return items →
              Forall (λ item,
                        PlanningProject.organizationId (item_project item) = org
                        ∧ In (item_project item) (planningProject (db w))) items).
Proof.
  intros Horg. split.
  - intros result. unfold getPlanningProject. rewrite resolver_pipe_cases.
    destruct (GetPlanningProjectSchema is_uuid raw) as [issues|input]; [done|].
    destruct (authorize (session ctx)); [|done].
    rewrite getPlanningProject_handler_cases, Horg. simpl.
    destruct (List.find _ _) as [p|] eqn:Hp; [|done].
    intros [= <-]. simpl. apply find_some in Hp as [Hin Hp].
    split; [|done]. unfold matches in Hp; simpl in Hp.
    apply andb_true_iff in Hp as [Hp _]. apply andb_true_iff in Hp as [_ Hp].
    by apply bool_decide_eq_true in Hp.
  - intros items. unfold getPlanningProjects. rewrite resolver_pipe_cases.
    destruct (GetPlanningProjectsSchema raw) as [issues|input]; [done|].
    destruct (authorize (session ctx)); [|done].
    rewrite getPlanningProjects_handler_cases.
    destruct (truthy_number _) as [org'|] eqn:Htruthy; [|done]. simpl.
    apply truthy_number_inv in Htruthy as [Horg' _].
    assert (org' = org) as -> by congruence.
    intros [= <-]. apply Forall_fmap, Forall_forall. intros p Hp. simpl.
    rewrite merge_sort_Permutation in Hp.
    apply list_elem_of_In, filter_In in Hp as [Hin Hp].
    apply matches_org_status in Hp as [Hp _]. by split.
Qed.

Lemma reads_stay_in_the_organization_witness :
  PlanningProject.organizationId
    (detail_project (detail (db Fixtures.world) Fixtures.bike_plan)) = 1
  ∧ In (detail_project (detail (db Fixtures.world) Fixtures.bike_plan))
      (planningProject (db Fixtures.world)).
Proof.
  destruct (reads_stay_in_the_organization Fixtures.is_uuid
              (Fixtures.id_only Fixtures.bike_plan_id) Fixtures.mockCtx Fixtures.world 1
              eq_refl) as [Hget _].
  apply Hget. reflexivity.
Defined.
